(** * tana-sync-gcal: the Tana date notation and the calendar event service

    A shallow embedding of
    - the date utilities ([@/common/utils/handle-tana-date]):
      [validateTanaDateValue], [extractTanaDateInfo], [TanaDateInfoSchema],
      [buildEventDateTimeInfo];
    - [src/api/events/service.ts]: [buildTanaPaste], [buildSummary],
      [createEvent], [updateEvent], [deleteEvent];
    - [src/api/events/schemas.ts] and [src/api/events/constants.ts]: the
      types of the fields and options, [DEFAULT_FIELDS_TO_RETURN],
      [DEFAULT_OPTIONS].

    JavaScript strings are modelled by [string]: sequences of code units
    below 256.  Exceptions are modelled by the [result] type.  The calls a
    function awaits from the calendar client are the nodes of a tree,
    [Async]; a run of the tree against a backend, any state machine that
    answers the calls, keeps every call and its answer in order. *)

From Stdlib Require Import String Ascii List ZArith Bool Arith Lia.
From Stdlib Require Import DecimalString.
Import ListNotations.

Open Scope string_scope.
Open Scope list_scope.

(** ** JavaScript strings *)

Module Js.

Definition nl : string := String "010"%char EmptyString.
Definition tab : string := String "009"%char EmptyString.
Definition dquote : string := String "034"%char EmptyString.

Definition isEmpty (s : string) : bool :=
  match s with
  | EmptyString => true
  | String _ _ => false
  end.

(** A string is truthy when it is not empty. *)
Definition truthy (s : string) : bool := negb (isEmpty s).

(** [strip_prefix p s] is [Some r] exactly when [s = p ++ r]. *)
Fixpoint strip_prefix (p s : string) : option string :=
  match p, s with
  | EmptyString, _ => Some s
  | String a p', String b s' =>
      if Ascii.eqb a b then strip_prefix p' s' else None
  | String _ _, EmptyString => None
  end.

(** [strip_suffix p s] is [Some r] exactly when [s = r ++ p]. *)
Fixpoint strip_suffix (p s : string) : option string :=
  if String.eqb s p then Some EmptyString
  else match s with
       | EmptyString => None
       | String c s' => option_map (String c) (strip_suffix p s')
       end.

Definition startsWith (s p : string) : bool :=
  match strip_prefix p s with Some _ => true | None => false end.

Definition endsWith (s p : string) : bool :=
  match strip_suffix p s with Some _ => true | None => false end.

Fixpoint includes (s : string) (c : ascii) : bool :=
  match s with
  | EmptyString => false
  | String a s' => Ascii.eqb a c || includes s' c
  end.

(** [String.prototype.split] with a one character separator: the pieces
    between the occurrences of the separator, all of them, in order.
    The result is never the empty list. *)
Fixpoint split (s : string) (sep : ascii) : list string :=
  match s with
  | EmptyString => [EmptyString]
  | String c s' =>
      if Ascii.eqb c sep then EmptyString :: split s' sep
      else match split s' sep with
           | piece :: pieces => String c piece :: pieces
           | [] => [String c EmptyString]
           end
  end.

(** WhiteSpace and LineTerminator code units below 256: TAB, LF, VT, FF,
    CR, SP and NBSP. *)
Definition isWhiteSpace (c : ascii) : bool :=
  let n := nat_of_ascii c in
  (((9 <=? n) && (n <=? 13)) || (n =? 32) || (n =? 160))%nat.

(** The code units that [.] does not match: LF and CR. *)
Definition isLineTerminator (c : ascii) : bool :=
  let n := nat_of_ascii c in
  ((n =? 10) || (n =? 13))%nat.

Fixpoint trimStart (s : string) : string :=
  match s with
  | EmptyString => EmptyString
  | String c s' => if isWhiteSpace c then trimStart s' else s
  end.

Fixpoint trimEnd (s : string) : string :=
  match s with
  | EmptyString => EmptyString
  | String c s' =>
      match trimEnd s' with
      | EmptyString =>
          if isWhiteSpace c then EmptyString else String c EmptyString
      | t => String c t
      end
  end.

Definition trim (s : string) : string := trimEnd (trimStart s).

End Js.

(** ** Errors and results *)

Inductive JsError : Type :=
| Error (message : string)      (* [throw new Error(message)] *)
| TypeError                     (* a property read on [undefined] or [null] *)
| Rejected (reason : string).   (* a failure surfaced by the calendar client *)

Inductive result (A : Type) : Type :=
| Ok (a : A)
| Thrown (e : JsError).

Arguments Ok {A} a.
Arguments Thrown {A} e.

Definition bind_result {A B} (r : result A) (k : A -> result B) : result B :=
  match r with
  | Ok a => k a
  | Thrown e => Thrown e
  end.

Declare Scope result_scope.
Delimit Scope result_scope with result.
Notation "'let?' x ':=' r 'in' k" := (bind_result r (fun x => k))
  (at level 10, x pattern, r at level 100, k at level 200) : result_scope.

(** ** handle-tana-date.ts *)

Module TanaDate.
Import Js.

(** The two token patterns are sequences of [\d] and literal characters,
    anchored at both ends. *)
Inductive atom : Type :=
| Digit
| Lit (c : ascii).

Definition isDigit (c : ascii) : bool :=
  let n := nat_of_ascii c in ((48 <=? n) && (n <=? 57))%nat.

Definition atom_matches (a : atom) (c : ascii) : bool :=
  match a with
  | Digit => isDigit c
  | Lit l => Ascii.eqb l c
  end.

(** [RegExp.prototype.test] for an anchored pattern [^a1...an$]. *)
Fixpoint test (pattern : list atom) (s : string) : bool :=
  match pattern, s with
  | [], EmptyString => true
  | a :: pattern', String c s' => atom_matches a c && test pattern' s'
  | _, _ => false
  end.

(** [/^\d{4}-\d{2}-\d{2}$/] *)
Definition TANA_DATE_REGEX : list atom :=
  [Digit; Digit; Digit; Digit; Lit "-"; Digit; Digit; Lit "-"; Digit; Digit].

(** [/^\d{4}-\d{2}-\d{2}T\d{2}:\d{2}$/] *)
Definition TANA_DATE_TIME_REGEX : list atom :=
  TANA_DATE_REGEX ++ [Lit "T"; Digit; Digit; Lit ":"; Digit; Digit].

Fixpoint all_chars (p : ascii -> bool) (s : string) : bool :=
  match s with
  | EmptyString => true
  | String c s' => p c && all_chars p s'
  end.

(** [/^\[\[date:(.+)\]\]$/]: the literal prefix, then one or more code
    units other than line terminators (the captured group), then the
    literal suffix at the end of the input.  Both anchors fix the group
    to everything between the prefix and the suffix. *)
Definition match_date_literal (value : string) : option string :=
  match strip_prefix "[[date:" value with
  | None => None
  | Some rest =>
      match strip_suffix "]]" rest with
      | None => None
      | Some group =>
          if truthy group
             && all_chars (fun c => negb (isLineTerminator c)) group
          then Some group
          else None
      end
  end.

Record TanaDateInfo : Type := {
  original : string;
  start : string;
  end_ : option string
}.

(** A destructured array element that may be [undefined]. *)
Definition falsy (part : option string) : bool :=
  match part with
  | None => true
  | Some s => isEmpty s
  end.

Definition test_part (pattern : list atom) (part : option string) : bool :=
  match part with
  | None => false
  | Some s => test pattern s
  end.

Definition validateTanaDateValue (value : string) : bool :=
  if negb (startsWith value "[[date:") || negb (endsWith value "]]")
  then false
  else
    match match_date_literal value with
    | None => false
    | Some content =>
        if isEmpty content then false
        else if isEmpty (trim content) then false
        else if negb (includes content "/")
        then test TANA_DATE_REGEX content
             || test TANA_DATE_TIME_REGEX content
        else
          let parts := split content "/" in
          let startPart := nth_error parts 0 in
          let endPart := nth_error parts 1 in
          if falsy startPart || falsy endPart then false
          else
            let startValid :=
              test_part TANA_DATE_REGEX startPart
              || test_part TANA_DATE_TIME_REGEX startPart in
            let endValid :=
              test_part TANA_DATE_REGEX endPart
              || test_part TANA_DATE_TIME_REGEX endPart in
            startValid && endValid
    end.

(** [date.replace(/^\[\[date:(.+)\]\]$/, '$1')] leaves a string that does
    not match as it is. *)
Definition extractTanaDateInfo (date : string) : TanaDateInfo :=
  let content :=
    match match_date_literal date with
    | Some group => group
    | None => date
    end in
  if negb (includes content "/")
  then {| original := date; start := content; end_ := None |}
  else
    match split content "/" with
    | startPart :: endPart :: _ =>
        {| original := date; start := startPart; end_ := Some endPart |}
    | [startPart] =>
        {| original := date; start := startPart; end_ := None |}
    | [] => {| original := date; start := content; end_ := None |}
    end.

Inductive ZodIssue : Type :=
| too_small (message : string)
| custom (message : string).

Definition invalid_format_message (value : string) : string :=
  "Invalid Tana date format: " ++ dquote ++ value ++ dquote
  ++ ". Expected formats:" ++ nl
  ++ tab ++ "- " ++ dquote ++ "[[date:YYYY-MM-DD]]" ++ dquote
  ++ " => Single date" ++ nl
  ++ tab ++ "- " ++ dquote ++ "[[date:YYYY-MM-DDTHH:MM]]" ++ dquote
  ++ " => Single date with time" ++ nl
  ++ tab ++ "- " ++ dquote ++ "[[date:YYYY-MM-DD/YYYY-MM-DD]]" ++ dquote
  ++ " => Date range" ++ nl
  ++ tab ++ "- " ++ dquote ++ "[[date:YYYY-MM-DDTHH:MM/YYYY-MM-DD]]"
  ++ dquote ++ " => Start time with end date" ++ nl
  ++ tab ++ "- " ++ dquote ++ "[[date:YYYY-MM-DDTHH:MM/YYYY-MM-DDTHH:MM]]"
  ++ dquote ++ " => Full date-time range" ++ nl
  ++ tab ++ "Example: " ++ dquote ++ "[[date:2025-01-15]]" ++ dquote
  ++ " or " ++ dquote ++ "[[date:2025-01-15T09:30/2025-01-16T17:00]]"
  ++ dquote.

(** [z.string().min(1, ...).refine(validateTanaDateValue, ...)
     .transform(extractTanaDateInfo)]: the transform runs only when no
    check has raised an issue. *)
Definition TanaDateInfoSchema (value : string)
  : list ZodIssue + TanaDateInfo :=
  let issues :=
    (if (String.length value <? 1)%nat
     then [too_small "Date value cannot be empty"] else [])
    ++ (if validateTanaDateValue value
        then [] else [custom (invalid_format_message value)]) in
  match issues with
  | [] => inr (extractTanaDateInfo value)
  | _ :: _ => inl issues
  end.

(** [EventDateTime]: either [{ date, timeZone }] or
    [{ dateTime, timeZone }]. *)
Inductive EventDateTime : Type :=
| AllDay (date : string) (timeZone : string)
| Timed (dateTime : string) (timeZone : string).

Record EventDateTimeInfo : Type := {
  info_start : EventDateTime;
  info_end : EventDateTime
}.

Open Scope result_scope.

(** The inner function of [buildEventDateTimeInfo]; [timeZone] is the
    variable it closes over. *)
Definition createEventDateTime (timeZone : string) (dateTimeString : string)
  : result EventDateTime :=
  if test TANA_DATE_TIME_REGEX dateTimeString
  then Ok (Timed (dateTimeString ++ ":00") timeZone)
  else if test TANA_DATE_REGEX dateTimeString
  then Ok (AllDay dateTimeString timeZone)
  else Thrown (Error ("Invalid date/time format: " ++ dateTimeString)).

Definition buildEventDateTimeInfo (dateInfo : TanaDateInfo)
  (timeZone : string) : result EventDateTimeInfo :=
  let? start := createEventDateTime timeZone dateInfo.(start) in
  let? end_ :=
    match dateInfo.(end_) with
    | Some e => if truthy e then createEventDateTime timeZone e
                else Ok start
    | None => Ok start
    end in
  Ok {| info_start := start; info_end := end_ |}.

End TanaDate.

(** ** The calendar client *)

Module gc.

(** A property of the backend's JSON: absent, [null], or a value. *)
Inductive nullable (A : Type) : Type :=
| Undefined
| Null
| Val (a : A).

Arguments Undefined {A}.
Arguments Null {A}.
Arguments Val {A} a.

(** Strict equality [===] of two optional strings. *)
Definition strict_eq (x y : nullable string) : bool :=
  match x, y with
  | Undefined, Undefined => true
  | Null, Null => true
  | Val a, Val b => String.eqb a b
  | _, _ => false
  end.

Definition strict_neq (x y : nullable string) : bool := negb (strict_eq x y).

(** The backend's time point [{ date?, dateTime?, timeZone? }]. *)
Record Schema_EventDateTime : Type := {
  date : nullable string;
  dateTime : nullable string;
  timeZone : nullable string
}.

(** The values a property read can give.  A number is an integer here, of
    a size JavaScript prints in plain decimal (the record's only numeric
    property is a small counter); an object carries the text its [toString]
    gives. *)
Inductive JsValue : Type :=
| JsUndefined
| JsNull
| JsBoolean (b : bool)
| JsNumber (n : Z)
| JsString (s : string)
| JsObject (rendering : string).

(** Modelled from the spec: the type [CalendarEvent] of
    [src/common/utils/google-calendar.ts], which is not among the sources.
    The spec's record has a title, a description, a location, an id, a URL
    and a time range; the service reads them as [summary], [description],
    [location], [id], [htmlLink], [start] and [end].  [others] holds
    every further property the object answers to. *)
Record CalendarEvent : Type := {
  id : nullable string;
  htmlLink : nullable string;
  summary : nullable string;
  description : nullable string;
  location : nullable string;
  start : nullable Schema_EventDateTime;
  end_ : nullable Schema_EventDateTime;
  others : list (string * JsValue)
}.

(** The object [{}]. *)
Definition emptyEvent : CalendarEvent :=
  {| id := Undefined; htmlLink := Undefined; summary := Undefined;
     description := Undefined; location := Undefined;
     start := Undefined; end_ := Undefined; others := [] |}.

Definition with_summary (v : nullable string) (e : CalendarEvent) :=
  {| id := e.(id); htmlLink := e.(htmlLink); summary := v;
     description := e.(description); location := e.(location);
     start := e.(start); end_ := e.(end_); others := e.(others) |}.

Definition with_description (v : nullable string) (e : CalendarEvent) :=
  {| id := e.(id); htmlLink := e.(htmlLink); summary := e.(summary);
     description := v; location := e.(location);
     start := e.(start); end_ := e.(end_); others := e.(others) |}.

Definition with_location (v : nullable string) (e : CalendarEvent) :=
  {| id := e.(id); htmlLink := e.(htmlLink); summary := e.(summary);
     description := e.(description); location := v;
     start := e.(start); end_ := e.(end_); others := e.(others) |}.

Definition with_start (v : nullable Schema_EventDateTime) (e : CalendarEvent) :=
  {| id := e.(id); htmlLink := e.(htmlLink); summary := e.(summary);
     description := e.(description); location := e.(location);
     start := v; end_ := e.(end_); others := e.(others) |}.

Definition with_end (v : nullable Schema_EventDateTime) (e : CalendarEvent) :=
  {| id := e.(id); htmlLink := e.(htmlLink); summary := e.(summary);
     description := e.(description); location := e.(location);
     start := e.(start); end_ := v; others := e.(others) |}.

(** ToBoolean. *)
Definition truthy (v : JsValue) : bool :=
  match v with
  | JsUndefined | JsNull => false
  | JsBoolean b => b
  | JsNumber n => negb (Z.eqb n 0)
  | JsString s => Js.truthy s
  | JsObject _ => true
  end.

(** ToString, as a template literal applies it. *)
Definition toString (v : JsValue) : string :=
  match v with
  | JsUndefined => "undefined"
  | JsNull => "null"
  | JsBoolean true => "true"
  | JsBoolean false => "false"
  | JsNumber n => NilZero.string_of_int (Z.to_int n)
  | JsString s => s
  | JsObject rendering => rendering
  end.

Definition of_string (v : nullable string) : JsValue :=
  match v with
  | Undefined => JsUndefined
  | Null => JsNull
  | Val s => JsString s
  end.

Definition of_point (v : nullable Schema_EventDateTime) : JsValue :=
  match v with
  | Undefined => JsUndefined
  | Null => JsNull
  | Val _ => JsObject "[object Object]"
  end.

Fixpoint assoc (key : string) (l : list (string * JsValue)) : JsValue :=
  match l with
  | [] => JsUndefined
  | (k, v) :: l' => if String.eqb k key then v else assoc key l'
  end.

(** The dynamic read [event[property]]. *)
Definition get (event : CalendarEvent) (property : string) : JsValue :=
  if String.eqb property "id" then of_string event.(id)
  else if String.eqb property "htmlLink" then of_string event.(htmlLink)
  else if String.eqb property "summary" then of_string event.(summary)
  else if String.eqb property "description"
  then of_string event.(description)
  else if String.eqb property "location" then of_string event.(location)
  else if String.eqb property "start" then of_point event.(start)
  else if String.eqb property "end" then of_point event.(end_)
  else assoc property event.(others).

(** A property read on a value that may be [undefined]. *)
Definition read {A} (event : option CalendarEvent)
  (f : CalendarEvent -> A) : result A :=
  match event with
  | Some e => Ok (f e)
  | None => Thrown TypeError
  end.

(** The calls of the client that resolve to an event.  The client's
    functions are not among the sources: a call is answered by whatever
    backend a run is given, see [Backend]. *)
Inductive EventCall : Type :=
| getEvent (accessToken calendarId eventId : string)
| insertEvent (accessToken calendarId : string) (event : CalendarEvent)
| updateEvent (accessToken calendarId eventId : string)
    (event : CalendarEvent)
| moveEventToAnotherCalendar
    (accessToken fromCalendarId eventId toCalendarId : string).

End gc.

(** ** Asynchronous code: calls into the client, awaited in sequence *)

Inductive Async (R : Type) : Type :=
| Return (r : R)
| Throw (e : JsError)
| Await (c : gc.EventCall) (k : option gc.CalendarEvent -> Async R)
| AwaitDelete (accessToken calendarId eventId : string) (k : bool -> Async R).

Arguments Return {R} r.
Arguments Throw {R} e.
Arguments Await {R} c k.
Arguments AwaitDelete {R} accessToken calendarId eventId k.

Fixpoint bind_async {A B} (p : Async A) (k : A -> Async B) : Async B :=
  match p with
  | Return a => k a
  | Throw e => Throw e
  | Await c k' => Await c (fun x => bind_async (k' x) k)
  | AwaitDelete t c i k' => AwaitDelete t c i (fun x => bind_async (k' x) k)
  end.

Definition await (c : gc.EventCall) : Async (option gc.CalendarEvent) :=
  Await c Return.

Definition lift {A} (r : result A) : Async A :=
  match r with
  | Ok a => Return a
  | Thrown e => Throw e
  end.

Declare Scope async_scope.
Delimit Scope async_scope with async.
Notation "'let!' x ':=' p 'in' k" := (bind_async p (fun x => k))
  (at level 10, x pattern, p at level 100, k at level 200) : async_scope.

(** A backend answers every call with a value or a failure and moves to its
    next state.  A run records the calls in order, each with its answer. *)
Record Backend (S : Type) : Type := {
  respond : gc.EventCall -> S -> result (option gc.CalendarEvent) * S;
  respondDelete : string -> string -> string -> S -> result bool * S
}.

Arguments respond {S} b c s.
Arguments respondDelete {S} b accessToken calendarId eventId s.

Inductive Entry : Type :=
| Called (c : gc.EventCall) (answer : result (option gc.CalendarEvent))
| CalledDelete (accessToken calendarId eventId : string)
    (answer : result bool).

Record Run (S R : Type) : Type := {
  outcome : result R;
  final : S;
  calls : list Entry
}.

Arguments outcome {S R} r.
Arguments final {S R} r.
Arguments calls {S R} r.

Fixpoint run {S R} (B : Backend S) (p : Async R) (s : S) : Run S R :=
  match p with
  | Return r => {| outcome := Ok r; final := s; calls := [] |}
  | Throw e => {| outcome := Thrown e; final := s; calls := [] |}
  | Await c k =>
      let (answer, s') := respond B c s in
      match answer with
      | Ok x =>
          let rest := run B (k x) s' in
          {| outcome := outcome rest; final := final rest;
             calls := Called c answer :: calls rest |}
      | Thrown e =>
          {| outcome := Thrown e; final := s'; calls := [Called c answer] |}
      end
  | AwaitDelete t c i k =>
      let (answer, s') := respondDelete B t c i s in
      match answer with
      | Ok x =>
          let rest := run B (k x) s' in
          {| outcome := outcome rest; final := final rest;
             calls := CalledDelete t c i answer :: calls rest |}
      | Thrown e =>
          {| outcome := Thrown e; final := s';
             calls := [CalledDelete t c i answer] |}
      end
  end.

(** ** schemas.ts and constants.ts *)

Module Schemas.

Record FieldToReturn : Type := {
  field : string;
  property : string
}.

Definition EventFieldsToReturn : Type := list FieldToReturn.

(** [fieldsToReturn] is declared optional and read with a non-null
    assertion; the routes always fill it from [DEFAULT_OPTIONS]. *)
Record EventOptions : Type := {
  prefix : option string;
  suffix : option string;
  fieldsToReturn : EventFieldsToReturn
}.

Module EventData.
Record t : Type := {
  name : string;
  date : TanaDate.TanaDateInfo;
  description : string;
  timeZone : string;
  location : string
}.
End EventData.

(** [EventDataSchema.partial()]: every key may be missing.  A key is
    present exactly when its value is defined. *)
Module PartialEventData.
Record t : Type := {
  name : option string;
  date : option TanaDate.TanaDateInfo;
  description : option string;
  timeZone : option string;
  location : option string
}.

Definition present {A} (key : string) (v : option A) : list string :=
  match v with
  | Some _ => [key]
  | None => []
  end.

(** [Object.keys(data)] *)
Definition keys (data : t) : list string :=
  present "name" data.(name) ++ present "date" data.(date)
  ++ present "description" data.(description)
  ++ present "timeZone" data.(timeZone)
  ++ present "location" data.(location).

(** The object [{}]. *)
Definition empty : t :=
  {| name := None; date := None; description := None;
     timeZone := None; location := None |}.

(** The object [{ name }]. *)
Definition only_name (n : string) : t :=
  {| name := Some n; date := None; description := None;
     timeZone := None; location := None |}.
End PartialEventData.

Definition DEFAULT_FIELDS_TO_RETURN : EventFieldsToReturn :=
  [ {| field := "Event URL"; property := "htmlLink" |};
    {| field := "Event ID"; property := "id" |};
    {| field := "Synced Calendar ID"; property := "calendarId" |} ].

Definition DEFAULT_OPTIONS : EventOptions :=
  {| prefix := None; suffix := None;
     fieldsToReturn := DEFAULT_FIELDS_TO_RETURN |}.

End Schemas.

(** ** service.ts *)

Module Service.
Import Schemas.
Import TanaDate.
Open Scope result_scope.
Open Scope async_scope.

(** [Array.prototype.reduce] with the index passed to the callback; the
    callback may throw. *)
Fixpoint reduce {A B} (f : B -> A -> nat -> result B) (l : list A)
  (index : nat) (acc : B) : result B :=
  match l with
  | [] => Ok acc
  | x :: l' => let? acc' := f acc x index in reduce f l' (S index) acc'
  end.

Definition buildTanaPaste (event : option gc.CalendarEvent)
  (calendarId : string) (fieldsToReturn : EventFieldsToReturn)
  : result string :=
  reduce
    (fun acc f index =>
       let? value :=
         if String.eqb f.(property) "calendarId"
         then Ok (gc.JsString calendarId)
         else gc.read event (fun e => gc.get e f.(property)) in
       if gc.truthy value
       then Ok (acc ++ f.(field) ++ "::" ++ gc.toString value
                ++ (if (1 <? List.length fieldsToReturn)%nat
                       && negb (index =? List.length fieldsToReturn - 1)%nat
                    then Js.nl else EmptyString))%string
       else Ok acc)
    fieldsToReturn 0 EmptyString.

Definition or_default (v : option string) (d : string) : string :=
  match v with
  | Some s => s
  | None => d
  end.

(** [v || d] on a string that may be [undefined]. *)
Definition or_else (v : option string) (d : string) : string :=
  match v with
  | Some s => if Js.truthy s then s else d
  | None => d
  end.

Definition buildSummary (name : string) (options : EventOptions) : string :=
  let prefix := or_default options.(prefix) EmptyString in
  let suffix := or_default options.(suffix) EmptyString in
  Js.trim (prefix ++ name ++ suffix)%string.

(** The object a built time point is: one of [date] and [dateTime], and
    the time zone. *)
Definition point (p : EventDateTime) : gc.Schema_EventDateTime :=
  match p with
  | AllDay d tz =>
      {| gc.date := gc.Val d; gc.dateTime := gc.Undefined;
         gc.timeZone := gc.Val tz |}
  | Timed dt tz =>
      {| gc.date := gc.Undefined; gc.dateTime := gc.Val dt;
         gc.timeZone := gc.Val tz |}
  end.

Definition createEvent (accessToken calendarId : string)
  (data : EventData.t) (options : EventOptions) : Async string :=
  let! info := lift (buildEventDateTimeInfo data.(EventData.date)
                       data.(EventData.timeZone)) in
  let! event :=
    await (gc.insertEvent accessToken calendarId
             {| gc.id := gc.Undefined; gc.htmlLink := gc.Undefined;
                gc.summary :=
                  gc.Val (buildSummary data.(EventData.name) options);
                gc.description := gc.Val data.(EventData.description);
                gc.location := gc.Val data.(EventData.location);
                gc.start := gc.Val (point info.(info_start));
                gc.end_ := gc.Val (point info.(info_end));
                gc.others := [] |}) in
  lift (buildTanaPaste event calendarId options.(fieldsToReturn)).

(** [p?.dateTime] and [p?.date] on a time point that may be missing. *)
Definition dateTime_of (p : gc.nullable gc.Schema_EventDateTime)
  : gc.nullable string :=
  match p with
  | gc.Val q => q.(gc.dateTime)
  | _ => gc.Undefined
  end.

Definition date_of (p : gc.nullable gc.Schema_EventDateTime)
  : gc.nullable string :=
  match p with
  | gc.Val q => q.(gc.date)
  | _ => gc.Undefined
  end.

(** The test of lines 181-184 and 188-191: does the rebuilt point differ
    from the record's point in [dateTime] or in [date]? *)
Definition differs (rebuilt : EventDateTime)
  (current : gc.nullable gc.Schema_EventDateTime) : bool :=
  gc.strict_neq (point rebuilt).(gc.dateTime) (dateTime_of current)
  || gc.strict_neq (point rebuilt).(gc.date) (date_of current).

(** One of the three guarded copies of lines 163-174. *)
Definition copy_if_changed (incoming : option string)
  (event : option gc.CalendarEvent)
  (current : gc.CalendarEvent -> gc.nullable string)
  (assign : gc.nullable string -> gc.CalendarEvent -> gc.CalendarEvent)
  (updatedEventData : gc.CalendarEvent) : result gc.CalendarEvent :=
  match incoming with
  | None => Ok updatedEventData
  | Some v =>
      let? c := gc.read event current in
      if gc.strict_neq (gc.Val v) c
      then Ok (assign (gc.Val v) updatedEventData)
      else Ok updatedEventData
  end.

(** Lines 161-194: the merge of the incoming fields into a copy of the
    record. *)
Definition mergeEventData (event : option gc.CalendarEvent)
  (data : PartialEventData.t) : result gc.CalendarEvent :=
  let updatedEventData :=
    match event with
    | Some e => e
    | None => gc.emptyEvent
    end in
  let? updatedEventData :=
    copy_if_changed data.(PartialEventData.name) event gc.summary
      gc.with_summary updatedEventData in
  let? updatedEventData :=
    copy_if_changed data.(PartialEventData.description) event
      gc.description gc.with_description updatedEventData in
  let? updatedEventData :=
    copy_if_changed data.(PartialEventData.location) event gc.location
      gc.with_location updatedEventData in
  match data.(PartialEventData.date) with
  | None => Ok updatedEventData
  | Some date =>
      let? info :=
        buildEventDateTimeInfo date
          (or_else data.(PartialEventData.timeZone) "Etc/UTC") in
      let start := info.(info_start) in
      let end_ := info.(info_end) in
      let? currentStart := gc.read event gc.start in
      let updatedEventData :=
        if differs start currentStart
        then gc.with_end (gc.Val (point end_))
               (gc.with_start (gc.Val (point start)) updatedEventData)
        else updatedEventData in
      let? currentEnd := gc.read event gc.end_ in
      let updatedEventData :=
        if differs end_ currentEnd
        then gc.with_end (gc.Val (point end_)) updatedEventData
        else updatedEventData in
      Ok updatedEventData
  end.

(** [options] is the parameter once its default, [DEFAULT_OPTIONS], has
    been applied; the merge of lines 161-194 is [mergeEventData]. *)
Definition updateEvent (accessToken fromCalendarId eventId : string)
  (data : PartialEventData.t) (options : EventOptions)
  (toCalendarId : option string) : Async string :=
  let currentCalendarId := fromCalendarId in
  let! event := await (gc.getEvent accessToken currentCalendarId eventId) in
  match event with
  | None => Throw (Error ("Event not found: " ++ eventId)%string)
  | Some _ =>
      let! (event, currentCalendarId) :=
        match toCalendarId with
        | Some to =>
            if Js.truthy to && negb (String.eqb to fromCalendarId)
            then
              let! moved :=
                await (gc.moveEventToAnotherCalendar accessToken
                         fromCalendarId eventId to) in
              Return (moved, to)
            else Return (event, currentCalendarId)
        | None => Return (event, currentCalendarId)
        end in
      let hasFieldsToUpdate :=
        (0 <? List.length (PartialEventData.keys data))%nat in
      let! event :=
        if hasFieldsToUpdate
        then
          let! event :=
            match event with
            | None =>
                await (gc.getEvent accessToken currentCalendarId eventId)
            | Some _ => Return event
            end in
          let! updatedEventData := lift (mergeEventData event data) in
          await (gc.updateEvent accessToken currentCalendarId eventId
                   updatedEventData)
        else Return event in
      lift (buildTanaPaste event currentCalendarId
              options.(fieldsToReturn))
  end.

Definition deleteEvent (accessToken calendarId eventId : string)
  : Async bool :=
  AwaitDelete accessToken calendarId eventId Return.

End Service.

(** ** The calls of a run, read back *)

Module Trace.

Definition answered (answer : result (option gc.CalendarEvent))
  : option gc.CalendarEvent :=
  match answer with
  | Ok event => event
  | Thrown _ => None
  end.

(** A record handed to [gc.updateEvent]: the calendar it is sent to, the
    record itself, and [held], the record the client answered with in the
    call just before (the fetch, or the move when the event was moved). *)
Record Submission : Type := {
  held : option gc.CalendarEvent;
  target : string;
  submitted : gc.CalendarEvent
}.

Fixpoint submissions_from (held : option gc.CalendarEvent) (log : list Entry)
  : list Submission :=
  match log with
  | [] => []
  | Called (gc.updateEvent _ calendarId _ event) answer :: log' =>
      {| held := held; target := calendarId; submitted := event |}
      :: submissions_from (answered answer) log'
  | Called _ answer :: log' => submissions_from (answered answer) log'
  | CalledDelete _ _ _ _ :: log' => submissions_from held log'
  end.

Definition submissions (log : list Entry) : list Submission :=
  submissions_from None log.

End Trace.

(** ** The specification's wording, for comparison with the code *)

Module Spec.
Import Js TanaDate Schemas.

(** A DateToken: a string in one of the two shapes. *)
Definition is_token (s : string) : bool :=
  test TANA_DATE_REGEX s || test TANA_DATE_TIME_REGEX s.

(** The two parts around the first occurrence of the separator. *)
Fixpoint split_first (s : string) (sep : ascii) : option (string * string) :=
  match s with
  | EmptyString => None
  | String c s' =>
      if Ascii.eqb c sep then Some (EmptyString, s')
      else match split_first s' sep with
           | Some (a, b) => Some (String c a, b)
           | None => None
           end
  end.

(** Recognize, rules 1 to 4 of the Date Notation Parser, as worded. *)
Definition recognize (value : string) : bool :=
  match strip_prefix "[[date:" value with
  | None => false
  | Some rest =>
      match strip_suffix "]]" rest with
      | None => false
      | Some content =>
          if isEmpty (trim content) then false
          else
            match split_first content "/" with
            | None => is_token content
            | Some (a, b) =>
                truthy a && truthy b && is_token a && is_token b
            end
      end
  end.

Fixpoint count (s : string) (c : ascii) : nat :=
  match s with
  | EmptyString => 0
  | String a s' => (if Ascii.eqb a c then 1 else 0) + count s' c
  end.

(** Output Serialization, as worded: one [field::value] line per selected
    field whose resolved value is truthy, joined by newline. *)
Definition resolve (event : gc.CalendarEvent) (calendarId : string)
  (f : FieldToReturn) : gc.JsValue :=
  if String.eqb f.(property) "calendarId" then gc.JsString calendarId
  else gc.get event f.(property).

Definition line (event : gc.CalendarEvent) (calendarId : string)
  (f : FieldToReturn) : string :=
  f.(field) ++ "::" ++ gc.toString (resolve event calendarId f).

Definition emitted (event : gc.CalendarEvent) (calendarId : string)
  (fields : EventFieldsToReturn) : list FieldToReturn :=
  filter (fun f => gc.truthy (resolve event calendarId f)) fields.

Definition serialize (event : gc.CalendarEvent) (calendarId : string)
  (fields : EventFieldsToReturn) : string :=
  String.concat nl
    (map (line event calendarId) (emitted event calendarId fields)).

(** The text the lines make when each one written, but for the one of the
    last selected field, is followed by a newline. *)
Fixpoint written (event : gc.CalendarEvent) (calendarId : string)
  (fields : EventFieldsToReturn) : string :=
  match fields with
  | [] => EmptyString
  | f :: fields' =>
      (if gc.truthy (resolve event calendarId f)
       then line event calendarId f
            ++ match fields' with [] => EmptyString | _ :: _ => nl end
       else EmptyString)
      ++ written event calendarId fields'
  end.

(** Update, step 2: a destination is supplied and differs from the
    source. *)
Definition moves (toCalendarId : option string) (fromCalendarId : string)
  : bool :=
  match toCalendarId with
  | Some to => truthy to && negb (String.eqb to fromCalendarId)
  | None => false
  end.

(** The calendar that holds the event after step 2. *)
Definition destination (toCalendarId : option string)
  (fromCalendarId : string) : string :=
  match toCalendarId with
  | Some to => if moves toCalendarId fromCalendarId then to else fromCalendarId
  | None => fromCalendarId
  end.

(** Is the last selected field one whose value is falsy? *)
Fixpoint last_omitted (event : gc.CalendarEvent) (calendarId : string)
  (fields : EventFieldsToReturn) : bool :=
  match fields with
  | [] => false
  | [f] => negb (gc.truthy (resolve event calendarId f))
  | _ :: fields' => last_omitted event calendarId fields'
  end.

(** The text after the joined lines: a newline exactly when a line was
    written and the last selected field was skipped. *)
Definition trailer (event : gc.CalendarEvent) (calendarId : string)
  (fields : EventFieldsToReturn) : string :=
  match emitted event calendarId fields with
  | [] => EmptyString
  | _ :: _ => if last_omitted event calendarId fields then nl else EmptyString
  end.

(** The route's pipeline on a date: the schema, then the time builder. *)
Definition parse_then_build (value timeZone : string)
  : option (result EventDateTimeInfo) :=
  match TanaDateInfoSchema value with
  | inr info => Some (buildEventDateTimeInfo info timeZone)
  | inl _ => None
  end.

End Spec.

(** ** Concrete inputs *)

Module Sample.
Import Schemas.

Definition event (id htmlLink : string) : gc.CalendarEvent :=
  {| gc.id := gc.Val id; gc.htmlLink := gc.Val htmlLink;
     gc.summary := gc.Val "Stand-up"; gc.description := gc.Val "daily";
     gc.location := gc.Val "Room 1";
     gc.start := gc.Val {| gc.date := gc.Val "2025-06-18";
                           gc.dateTime := gc.Undefined;
                           gc.timeZone := gc.Undefined |};
     gc.end_ := gc.Val {| gc.date := gc.Val "2025-06-19";
                          gc.dateTime := gc.Undefined;
                          gc.timeZone := gc.Undefined |};
     gc.others := [("status", gc.JsString "confirmed")] |}.

Definition id_then_url : EventFieldsToReturn :=
  [ {| field := "Event ID"; property := "id" |};
    {| field := "Event URL"; property := "htmlLink" |} ].

Definition fetched : gc.CalendarEvent :=
  event "abc" "https://calendar.example/event?eid=abc".

(** An all-day record as a time-zoned backend gives it. *)
Definition fetched_in_tokyo : gc.CalendarEvent :=
  gc.with_end
    (gc.Val {| gc.date := gc.Val "2025-06-19"; gc.dateTime := gc.Undefined;
               gc.timeZone := gc.Val "Asia/Tokyo" |})
    (gc.with_start
       (gc.Val {| gc.date := gc.Val "2025-06-18"; gc.dateTime := gc.Undefined;
                  gc.timeZone := gc.Val "Asia/Tokyo" |})
       fetched).

Definition redate (date : TanaDate.TanaDateInfo) (timeZone : option string)
  : PartialEventData.t :=
  {| PartialEventData.name := None;
     PartialEventData.date := Some date;
     PartialEventData.description := None;
     PartialEventData.timeZone := timeZone;
     PartialEventData.location := None |}.

(** [[[date:2025-06-17/2025-06-19]]]: against [fetched], a new start and
    the same end. *)
Definition start_a_day_earlier : TanaDate.TanaDateInfo :=
  {| TanaDate.original := "[[date:2025-06-17/2025-06-19]]";
     TanaDate.start := "2025-06-17";
     TanaDate.end_ := Some "2025-06-19" |}.

(** [[[date:2025-06-18/2025-06-19]]]: the dates of [fetched]. *)
Definition same_days : TanaDate.TanaDateInfo :=
  {| TanaDate.original := "[[date:2025-06-18/2025-06-19]]";
     TanaDate.start := "2025-06-18";
     TanaDate.end_ := Some "2025-06-19" |}.

(** A backend without state: every fetch and move answers [stored], every
    update and insert answers the record it was sent. *)
Definition echo (stored : option gc.CalendarEvent) : Backend unit :=
  {| respond := fun c s =>
       match c with
       | gc.getEvent _ _ _ => (Ok stored, s)
       | gc.moveEventToAnotherCalendar _ _ _ _ => (Ok stored, s)
       | gc.updateEvent _ _ _ e => (Ok (Some e), s)
       | gc.insertEvent _ _ e => (Ok (Some e), s)
       end;
     respondDelete := fun _ _ _ s => (Ok true, s) |}.

End Sample.

(** ** The notation written back, and what trimming leaves *)

Module Unparse.
Import TanaDate.

(** The notation of a date info: its start, then [/] and its end when it
    has one, between the brackets. *)
Definition render (info : TanaDateInfo) : string :=
  "[[date:" ++ info.(start)
  ++ match info.(end_) with
     | Some e => "/" ++ e
     | None => EmptyString
     end
  ++ "]]".

(** Does the string begin, and end, with a code unit that is not white
    space?  The empty string does both. *)
Definition starts_clean (s : string) : bool :=
  match s with
  | EmptyString => true
  | String c _ => negb (Js.isWhiteSpace c)
  end.

Fixpoint ends_clean (s : string) : bool :=
  match s with
  | EmptyString => true
  | String c EmptyString => negb (Js.isWhiteSpace c)
  | String _ s' => ends_clean s'
  end.

Definition clean (s : string) : bool := starts_clean s && ends_clean s.

End Unparse.

(** ** The shapes of built time points *)

Module Shapes.
Import TanaDate.

(** [YYYY-MM-DDTHH:MM:00]: a date-time token followed by [:00]. *)
Definition DATE_TIME_SECONDS : list atom :=
  TANA_DATE_TIME_REGEX ++ [Lit ":"; Lit "0"; Lit "0"].

(** An all-day point holds a date-only token, a timed point a date-time
    token with its seconds; both hold the given time zone. *)
Definition well_shaped (timeZone : string) (p : EventDateTime) : bool :=
  match p with
  | AllDay d tz => test TANA_DATE_REGEX d && String.eqb tz timeZone
  | Timed dt tz => test DATE_TIME_SECONDS dt && String.eqb tz timeZone
  end.

End Shapes.

(** ** The kinds of calls in a run *)

Module Calls.

Definition is_move (e : Entry) : bool :=
  match e with
  | Called (gc.moveEventToAnotherCalendar _ _ _ _) _ => true
  | _ => false
  end.

Definition is_insert (e : Entry) : bool :=
  match e with
  | Called (gc.insertEvent _ _ _) _ => true
  | _ => false
  end.

(** The calendar a call is addressed to: for a move, the calendar the
    event leaves. *)
Definition calendar_of (e : Entry) : string :=
  match e with
  | Called (gc.getEvent _ c _) _ => c
  | Called (gc.insertEvent _ c _) _ => c
  | Called (gc.updateEvent _ c _ _) _ => c
  | Called (gc.moveEventToAnotherCalendar _ c _ _) _ => c
  | CalledDelete _ c _ _ => c
  end.

End Calls.

(** ** index.ts: the handlers of the routes, past authentication and
    validation *)

Module Routes.

(** The output of [EventOptionsSchema]: every key may be missing. *)
Record RequestOptions : Type := {
  prefix : option string;
  suffix : option string;
  fieldsToReturn : option Schemas.EventFieldsToReturn
}.

(** A key of the second object, when it is there, replaces the key of the
    first. *)
Definition spread {A} (first second : option A) : option A :=
  match second with
  | Some v => Some v
  | None => first
  end.

(** [{ ...DEFAULT_OPTIONS, ...options }], where [options] may be
    [undefined]. *)
Definition withDefaults (options : option RequestOptions)
  : Schemas.EventOptions :=
  match options with
  | None => Schemas.DEFAULT_OPTIONS
  | Some o =>
      {| Schemas.prefix :=
           spread Schemas.DEFAULT_OPTIONS.(Schemas.prefix) o.(prefix);
         Schemas.suffix :=
           spread Schemas.DEFAULT_OPTIONS.(Schemas.suffix) o.(suffix);
         Schemas.fieldsToReturn :=
           match o.(fieldsToReturn) with
           | Some fields => fields
           | None => Schemas.DEFAULT_OPTIONS.(Schemas.fieldsToReturn)
           end |}
  end.

(** [POST /events?to=...] *)
Definition postEvent (accessToken calendarId : string)
  (data : Schemas.EventData.t) (options : option RequestOptions)
  : Async string :=
  Service.createEvent accessToken calendarId data (withDefaults options).

(** [PUT /events/:eventId?from=...&to=...] *)
Definition putEvent (accessToken fromCalendarId : string)
  (toCalendarId : option string) (eventId : string)
  (data : Schemas.PartialEventData.t) (options : option RequestOptions)
  : Async string :=
  Service.updateEvent accessToken fromCalendarId eventId data
    (withDefaults options) toCalendarId.

(** [POST /events/:eventId/delete?from=...] *)
Definition postDelete (accessToken calendarId eventId : string)
  : Async string :=
  bind_async (Service.deleteEvent accessToken calendarId eventId)
    (fun success =>
       Return (if success
               then "Event deleted successfully: " ++ eventId
               else "Failed to delete event: " ++ eventId)%string).

End Routes.

(** ** schemas.ts: the schemas of the event data *)

Module EventSchemas.
Import Js.

(** The [data] object of a request body, every key a string or missing.
    [validTimeZone] stands for the time zone check of the schema, which asks
    [Intl.DateTimeFormat] whether it knows the zone. *)
Record Body : Type := {
  name : option string;
  date : option string;
  description : option string;
  timeZone : option string;
  location : option string
}.

(** [z.string().min(1, ...).trim()]: the length is checked on the string as
    it comes, which is trimmed afterwards. *)
Definition parse_name (s : string) : option string :=
  if (String.length s <? 1)%nat then None else Some (trim s).

(** [TanaDateInfoSchema] *)
Definition parse_date (s : string) : option TanaDate.TanaDateInfo :=
  match TanaDate.TanaDateInfoSchema s with
  | inr info => Some info
  | inl _ => None
  end.

(** [z.string()...transform((val) => val.trim())] *)
Definition parse_description (s : string) : option string := Some (trim s).

(** [z.string().min(1, ...)...refine(...)] *)
Definition parse_timeZone (validTimeZone : string -> bool) (s : string)
  : option string :=
  if (String.length s <? 1)%nat then None
  else if validTimeZone s then Some s else None.

(** [z.string().max(1024, ...)...transform((val) => val.trim())] *)
Definition parse_location (s : string) : option string :=
  if (1024 <? String.length s)%nat then None else Some (trim s).

(** [.default(d)]: a missing key is parsed as [d]. *)
Definition with_default (d : string) (v : option string) : string :=
  match v with
  | Some s => s
  | None => d
  end.

(** [EventDataSchema]: [None] when a check raises an issue. *)
Definition EventDataSchema (validTimeZone : string -> bool) (body : Body)
  : option Schemas.EventData.t :=
  match body.(name), body.(date) with
  | Some n, Some d =>
      match parse_name n, parse_date d,
            parse_description (with_default EmptyString body.(description)),
            parse_timeZone validTimeZone
              (with_default "Etc/UTC" body.(timeZone)),
            parse_location (with_default EmptyString body.(location)) with
      | Some n', Some d', Some de', Some tz', Some l' =>
          Some {| Schemas.EventData.name := n';
                  Schemas.EventData.date := d';
                  Schemas.EventData.description := de';
                  Schemas.EventData.timeZone := tz';
                  Schemas.EventData.location := l' |}
      | _, _, _, _, _ => None
      end
  | _, _ => None
  end.

(** [.optional()], which [.partial()] puts on every key: a missing key
    stays missing, and no default is applied. *)
Definition optional {A} (parse : string -> option A) (v : option string)
  : option (option A) :=
  match v with
  | None => Some None
  | Some s =>
      match parse s with
      | Some a => Some (Some a)
      | None => None
      end
  end.

(** [PartialEventDataSchema] *)
Definition PartialEventDataSchema (validTimeZone : string -> bool)
  (body : Body) : option Schemas.PartialEventData.t :=
  match optional parse_name body.(name),
        optional parse_date body.(date),
        optional parse_description body.(description),
        optional (parse_timeZone validTimeZone) body.(timeZone),
        optional parse_location body.(location) with
  | Some n, Some d, Some de, Some tz, Some l =>
      Some {| Schemas.PartialEventData.name := n;
              Schemas.PartialEventData.date := d;
              Schemas.PartialEventData.description := de;
              Schemas.PartialEventData.timeZone := tz;
              Schemas.PartialEventData.location := l |}
  | _, _, _, _, _ => None
  end.

(** A check that knows two zones. *)
Definition two_zones (tz : string) : bool :=
  String.eqb tz "Etc/UTC" || String.eqb tz "Europe/Paris".

End EventSchemas.

(** ** More concrete inputs *)

Module Backends.

(** A backend that answers every fetch and move with [stored] and refuses
    every update and insert. *)
Definition read_only (stored : option gc.CalendarEvent) : Backend unit :=
  {| respond := fun c s =>
       match c with
       | gc.getEvent _ _ _ => (Ok stored, s)
       | gc.moveEventToAnotherCalendar _ _ _ _ => (Ok stored, s)
       | gc.updateEvent _ _ _ _ => (Thrown (Rejected "forbidden"), s)
       | gc.insertEvent _ _ _ => (Thrown (Rejected "forbidden"), s)
       end;
     respondDelete := fun _ _ _ s => (Ok false, s) |}.

(** A backend that keeps what it is sent: it gives an inserted record the
    id [new] and a link, and counts its calls. *)
Definition keeping : Backend nat :=
  {| respond := fun c n =>
       match c with
       | gc.insertEvent _ _ e =>
           (Ok (Some (gc.with_summary e.(gc.summary)
                        {| gc.id := gc.Val "new";
                           gc.htmlLink := gc.Val "https://calendar.example/new";
                           gc.summary := gc.Undefined;
                           gc.description := e.(gc.description);
                           gc.location := e.(gc.location);
                           gc.start := e.(gc.start);
                           gc.end_ := e.(gc.end_);
                           gc.others := e.(gc.others) |})), S n)
       | gc.updateEvent _ _ _ e => (Ok (Some e), S n)
       | _ => (Ok None, S n)
       end;
     respondDelete := fun _ _ _ n => (Ok true, S n) |}.

Definition stand_up : Schemas.EventData.t :=
  {| Schemas.EventData.name := "Stand-up";
     Schemas.EventData.date := Sample.same_days;
     Schemas.EventData.description := "daily";
     Schemas.EventData.timeZone := "Europe/Paris";
     Schemas.EventData.location := "Room 1" |}.

End Backends.

(** ** Selections *)

Module Selection.

(** Does the field read the calendar id, not the record? *)
Definition reads_calendar_only (f : Schemas.FieldToReturn) : bool :=
  String.eqb f.(Schemas.property) "calendarId".

End Selection.

(** * Properties *)

(** ** Strings *)

Module StringFacts.
Import Js.

Lemma append_empty_r (s : string) : (s ++ EmptyString)%string = s.
Proof.
  induction s as [|c s IH]; simpl; [reflexivity | now rewrite IH].
Qed.

Lemma append_assoc (a b c : string) :
  ((a ++ b) ++ c)%string = (a ++ (b ++ c))%string.
Proof.
  induction a as [|x a IH]; simpl; [reflexivity | now rewrite IH].
Qed.

Lemma strip_prefix_sound (p s r : string) :
  strip_prefix p s = Some r -> s = (p ++ r)%string.
Proof.
  revert s; induction p as [|a p IH]; intros s H; simpl in *.
  - now inversion H.
  - destruct s as [|b s]; [discriminate|].
    destruct (Ascii.eqb_spec a b) as [->|]; [|discriminate].
    now rewrite (IH _ H).
Qed.

Lemma strip_suffix_sound (p s r : string) :
  strip_suffix p s = Some r -> s = (r ++ p)%string.
Proof.
  revert r; induction s as [|c s IH]; intros r H.
  - destruct p; simpl in H; [now inversion H | discriminate].
  - cbn [strip_suffix] in H.
    destruct (String.eqb_spec (String c s) p) as [<-|].
    + now inversion H.
    + destruct (strip_suffix p s) as [r'|]; [|discriminate].
      inversion H; subst; simpl. now rewrite <- (IH r' eq_refl).
Qed.

End StringFacts.

(** ** The date notation *)

Module TanaDateFacts.
Import Js TanaDate Spec StringFacts.

Lemma test_length (pattern : list atom) (s : string) :
  test pattern s = true -> String.length s = List.length pattern.
Proof.
  revert s; induction pattern as [|a p IH]; intros [|c s] H; simpl in *;
    try discriminate; [reflexivity|].
  apply andb_true_iff in H as [_ H]. now rewrite (IH _ H).
Qed.

(** The two shapes exclude each other: they differ in length. *)
Lemma date_is_not_date_time (s : string) :
  test TANA_DATE_REGEX s = true -> test TANA_DATE_TIME_REGEX s = false.
Proof.
  intros H. apply test_length in H.
  destruct (test TANA_DATE_TIME_REGEX s) eqn:E; [|reflexivity].
  apply test_length in E. rewrite H in E. discriminate.
Qed.

Lemma createEventDateTime_date_time (timeZone s : string) :
  test TANA_DATE_TIME_REGEX s = true ->
  createEventDateTime timeZone s = Ok (Timed (s ++ ":00") timeZone).
Proof. intros H. unfold createEventDateTime. now rewrite H. Qed.

Lemma createEventDateTime_date (timeZone s : string) :
  test TANA_DATE_REGEX s = true ->
  createEventDateTime timeZone s = Ok (AllDay s timeZone).
Proof.
  intros H. unfold createEventDateTime.
  now rewrite (date_is_not_date_time _ H), H.
Qed.

Lemma createEventDateTime_token (timeZone s : string) :
  is_token s = true ->
  exists p, createEventDateTime timeZone s = Ok p.
Proof.
  unfold is_token. intros H. apply orb_true_iff in H as [H|H].
  - eexists. now apply createEventDateTime_date.
  - eexists. now apply createEventDateTime_date_time.
Qed.

Lemma createEventDateTime_invalid (timeZone s : string) :
  is_token s = false ->
  createEventDateTime timeZone s
  = Thrown (Error ("Invalid date/time format: " ++ s)).
Proof.
  unfold is_token. intros H. apply orb_false_iff in H as [H1 H2].
  unfold createEventDateTime. now rewrite H1, H2.
Qed.

Lemma token_is_truthy (s : string) : is_token s = true -> truthy s = true.
Proof. destruct s; [discriminate | reflexivity]. Qed.

(** The five documented shapes are accepted, and decomposed into the
    literal parts. *)
Lemma five_shapes_are_accepted :
  TanaDateInfoSchema "[[date:2025-06-18]]"
  = inr {| original := "[[date:2025-06-18]]";
           start := "2025-06-18"; end_ := None |}
  /\ TanaDateInfoSchema "[[date:2025-06-18T00:00]]"
     = inr {| original := "[[date:2025-06-18T00:00]]";
              start := "2025-06-18T00:00"; end_ := None |}
  /\ TanaDateInfoSchema "[[date:2025-06-18/2025-06-19]]"
     = inr {| original := "[[date:2025-06-18/2025-06-19]]";
              start := "2025-06-18"; end_ := Some "2025-06-19" |}
  /\ TanaDateInfoSchema "[[date:2025-06-18T08:00/2025-06-19]]"
     = inr {| original := "[[date:2025-06-18T08:00/2025-06-19]]";
              start := "2025-06-18T08:00"; end_ := Some "2025-06-19" |}
  /\ TanaDateInfoSchema "[[date:2025-06-18T08:00/2025-06-19T08:00]]"
     = inr {| original := "[[date:2025-06-18T08:00/2025-06-19T08:00]]";
              start := "2025-06-18T08:00";
              end_ := Some "2025-06-19T08:00" |}.
Proof. repeat split; reflexivity. Qed.

(** C3. The input [[[date:2025-06-18/2025-06-19/2025-06-20]]], whose content
    has two [/], is accepted by the code, where the specification's
    recognizer (which splits on the first [/] only) rejects it: the schema
    yields a [TanaDateInfo] made of the first two parts, and the third part
    is dropped. *)
Theorem three_part_range_is_accepted :
  validateTanaDateValue "[[date:2025-06-18/2025-06-19/2025-06-20]]" = true
  /\ recognize "[[date:2025-06-18/2025-06-19/2025-06-20]]" = false
  /\ split_first "2025-06-18/2025-06-19/2025-06-20" "/"
     = Some ("2025-06-18", "2025-06-19/2025-06-20")
  /\ is_token "2025-06-19/2025-06-20" = false
  /\ TanaDateInfoSchema "[[date:2025-06-18/2025-06-19/2025-06-20]]"
     = inr {| original := "[[date:2025-06-18/2025-06-19/2025-06-20]]";
              start := "2025-06-18";
              end_ := Some "2025-06-19" |}.
Proof. repeat split; reflexivity. Qed.

(** C4. The input [[[date:2025-06-18/2025-06-19/not-a-date]]] has a
    [/]-separated part, [not-a-date], that matches neither pattern; the code
    accepts it all the same and the schema produces a [TanaDateInfo], because
    only the first two parts of the split are looked at. *)
Theorem range_with_malformed_third_part_is_accepted :
  validateTanaDateValue "[[date:2025-06-18/2025-06-19/not-a-date]]" = true
  /\ split "2025-06-18/2025-06-19/not-a-date" "/"
     = ["2025-06-18"; "2025-06-19"; "not-a-date"]
  /\ is_token "not-a-date" = false
  /\ recognize "[[date:2025-06-18/2025-06-19/not-a-date]]" = false
  /\ TanaDateInfoSchema "[[date:2025-06-18/2025-06-19/not-a-date]]"
     = inr {| original := "[[date:2025-06-18/2025-06-19/not-a-date]]";
              start := "2025-06-18";
              end_ := Some "2025-06-19" |}.
Proof. repeat split; reflexivity. Qed.

(** C5. For every date info whose tokens are in one of the two shapes and
    every time zone, the builder succeeds; a date-time token gives the timed
    point of the token followed by [:00], a date-only token gives the all-day
    point of the token, both with the given time zone, and without an end
    the end is the start.  In particular [[[date:2025-06-18]]] parsed and
    built with [Etc/UTC] gives the all-day point of [2025-06-18] twice, and
    [[[date:2025-06-18T08:00/2025-06-19]]] keeps a timed start and an all-day
    end. *)
Theorem builder_maps_tokens :
  (forall (info : TanaDateInfo) (timeZone : string),
      is_token info.(start) = true ->
      (forall e, info.(end_) = Some e -> is_token e = true) ->
      exists r,
        buildEventDateTimeInfo info timeZone = Ok r
        /\ (test TANA_DATE_TIME_REGEX info.(start) = true ->
            r.(info_start) = Timed (info.(start) ++ ":00") timeZone)
        /\ (test TANA_DATE_REGEX info.(start) = true ->
            r.(info_start) = AllDay info.(start) timeZone)
        /\ (forall e, info.(end_) = Some e ->
            test TANA_DATE_TIME_REGEX e = true ->
            r.(info_end) = Timed (e ++ ":00") timeZone)
        /\ (forall e, info.(end_) = Some e ->
            test TANA_DATE_REGEX e = true ->
            r.(info_end) = AllDay e timeZone)
        /\ (info.(end_) = None -> r.(info_end) = r.(info_start)))
  /\ parse_then_build "[[date:2025-06-18]]" "Etc/UTC"
     = Some (Ok {| info_start := AllDay "2025-06-18" "Etc/UTC";
                   info_end := AllDay "2025-06-18" "Etc/UTC" |})
  /\ parse_then_build "[[date:2025-06-18T08:00/2025-06-19]]" "Etc/UTC"
     = Some (Ok {| info_start := Timed "2025-06-18T08:00:00" "Etc/UTC";
                   info_end := AllDay "2025-06-19" "Etc/UTC" |}).
Proof.
  split; [|split; reflexivity].
  intros [orig s e] tz Hs He; simpl in *.
  unfold buildEventDateTimeInfo; simpl.
  destruct (createEventDateTime_token tz s Hs) as [ps Eps]. rewrite Eps; simpl.
  destruct e as [e|].
  - specialize (He e eq_refl). rewrite (token_is_truthy _ He).
    destruct (createEventDateTime_token tz e He) as [pe Epe].
    rewrite Epe; simpl. eexists; split; [reflexivity|]; simpl.
    repeat split.
    + intros H. rewrite (createEventDateTime_date_time _ _ H) in Eps.
      now inversion Eps.
    + intros H. rewrite (createEventDateTime_date _ _ H) in Eps.
      now inversion Eps.
    + intros e' [= <-] H. rewrite (createEventDateTime_date_time _ _ H) in Epe.
      now inversion Epe.
    + intros e' [= <-] H. rewrite (createEventDateTime_date _ _ H) in Epe.
      now inversion Epe.
    + discriminate.
  - eexists; split; [reflexivity|]; simpl. repeat split.
    + intros H. rewrite (createEventDateTime_date_time _ _ H) in Eps.
      now inversion Eps.
    + intros H. rewrite (createEventDateTime_date _ _ H) in Eps.
      now inversion Eps.
    + discriminate.
    + discriminate.
Qed.

Lemma builder_maps_tokens_witness :
  exists r,
    buildEventDateTimeInfo
      {| original := "[[date:2025-06-18T08:00/2025-06-19]]";
         start := "2025-06-18T08:00"; end_ := Some "2025-06-19" |}
      "Europe/Paris" = Ok r
    /\ r.(info_start) = Timed "2025-06-18T08:00:00" "Europe/Paris"
    /\ r.(info_end) = AllDay "2025-06-19" "Europe/Paris".
Proof.
  destruct (proj1 builder_maps_tokens
              {| original := "[[date:2025-06-18T08:00/2025-06-19]]";
                 start := "2025-06-18T08:00"; end_ := Some "2025-06-19" |}
              "Europe/Paris" eq_refl)
    as [r [E [Hs [_ [_ [He _]]]]]].
  - intros e [= <-]. reflexivity.
  - exists r. split; [exact E|]. split.
    + exact (Hs eq_refl).
    + exact (He _ eq_refl eq_refl).
Defined.

(** C6, as the code has it.  A token in neither shape makes the conversion
    of a single token throw an error whose message names it, and no time
    point is produced; so does the builder when the token is the start, and
    when it is a non-empty end after a well-formed start.  An empty end is
    taken as an absent one: after a well-formed start the builder then
    returns, with the point of the start as end.  So whenever the builder
    returns, no point was made from such a token: it was not the start, and
    if it was the end it was empty and the end returned is the start. *)
Theorem builder_rejects_other_tokens (token timeZone : string) :
  is_token token = false ->
  createEventDateTime timeZone token
  = Thrown (Error ("Invalid date/time format: " ++ token))
  /\ (forall info, info.(start) = token ->
      buildEventDateTimeInfo info timeZone
      = Thrown (Error ("Invalid date/time format: " ++ token)))
  /\ (forall info, is_token info.(start) = true ->
      info.(end_) = Some token -> token <> EmptyString ->
      buildEventDateTimeInfo info timeZone
      = Thrown (Error ("Invalid date/time format: " ++ token)))
  /\ (forall info, is_token info.(start) = true ->
      info.(end_) = Some token -> token = EmptyString ->
      exists p,
        createEventDateTime timeZone info.(start) = Ok p
        /\ buildEventDateTimeInfo info timeZone
           = Ok {| info_start := p; info_end := p |})
  /\ (forall info r, buildEventDateTimeInfo info timeZone = Ok r ->
      info.(start) <> token
      /\ (info.(end_) = Some token ->
          token = EmptyString /\ r.(info_end) = r.(info_start))).
Proof.
  intros H. pose proof (createEventDateTime_invalid timeZone token H) as E.
  split; [exact E|]. split; [|split; [|split]].
  - intros [orig s e] Hs; simpl in Hs; subst s.
    unfold buildEventDateTimeInfo; simpl. now rewrite E.
  - intros [orig s e] Hs He Hne; simpl in *; subst e.
    unfold buildEventDateTimeInfo; simpl.
    destruct (createEventDateTime_token timeZone s Hs) as [ps ->]; simpl.
    assert (truthy token = true) as ->
        by (destruct token; [congruence | reflexivity]).
    now rewrite E.
  - intros [orig s e] Hs He ->; simpl in *; subst e.
    unfold buildEventDateTimeInfo; simpl.
    destruct (createEventDateTime_token timeZone s Hs) as [ps ->]; simpl.
    now exists ps.
  - intros [orig s e] r. unfold buildEventDateTimeInfo; simpl.
    destruct (createEventDateTime timeZone s) as [ps|err] eqn:Es;
      [|discriminate]. simpl. intros R. split.
    + intros ->. rewrite E in Es. discriminate.
    + intros ->. destruct token as [|c token].
      * simpl in R. injection R as <-. now split.
      * simpl in R. rewrite E in R. discriminate.
Qed.

Lemma builder_rejects_other_tokens_witness :
  createEventDateTime "Etc/UTC" "2025-06-18T08:00:00"
  = Thrown (Error "Invalid date/time format: 2025-06-18T08:00:00")
  /\ buildEventDateTimeInfo
       {| original := "[[date:2025-06-18/18-06-2025]]";
          start := "2025-06-18"; end_ := Some "18-06-2025" |} "Etc/UTC"
     = Thrown (Error "Invalid date/time format: 18-06-2025")
  /\ exists p,
       createEventDateTime "Etc/UTC" "2025-06-18" = Ok p
       /\ buildEventDateTimeInfo (extractTanaDateInfo "[[date:2025-06-18/]]")
            "Etc/UTC"
          = Ok {| info_start := p; info_end := p |}.
Proof.
  split; [|split].
  - exact (proj1 (builder_rejects_other_tokens
                    "2025-06-18T08:00:00" "Etc/UTC" eq_refl)).
  - apply (proj1 (proj2 (proj2 (builder_rejects_other_tokens
                                  "18-06-2025" "Etc/UTC" eq_refl)))).
    + reflexivity.
    + reflexivity.
    + discriminate.
  - apply (proj1 (proj2 (proj2 (proj2 (builder_rejects_other_tokens
                                         EmptyString "Etc/UTC" eq_refl))))
             (extractTanaDateInfo "[[date:2025-06-18/]]"));
      reflexivity.
Defined.

(** C6, as the claim has it, fails.  The empty string is in neither shape.
    [[[date:2025-06-18/]]] decomposes into the start [2025-06-18] and the
    empty string as end, and on that the builder throws nothing: it returns
    the all-day point of the start twice. *)
Lemma empty_end_is_taken_as_absent :
  is_token EmptyString = false
  /\ extractTanaDateInfo "[[date:2025-06-18/]]"
     = {| original := "[[date:2025-06-18/]]";
          start := "2025-06-18"; end_ := Some EmptyString |}
  /\ buildEventDateTimeInfo
       {| original := "[[date:2025-06-18/]]";
          start := "2025-06-18"; end_ := Some EmptyString |} "Etc/UTC"
     = Ok {| info_start := AllDay "2025-06-18" "Etc/UTC";
             info_end := AllDay "2025-06-18" "Etc/UTC" |}
  /\ buildEventDateTimeInfo
       {| original := "[[date:2025-06-18/]]";
          start := "2025-06-18"; end_ := Some EmptyString |} "Etc/UTC"
     <> Thrown (Error "Invalid date/time format: ").
Proof.
  repeat split; try reflexivity. discriminate.
Qed.

End TanaDateFacts.

(** ** The code against the specification's recognizer *)

Module RecognizeFacts.
Import Js TanaDate Spec StringFacts.

Lemma all_chars_app (p : ascii -> bool) (a b : string) :
  all_chars p (a ++ b) = all_chars p a && all_chars p b.
Proof.
  induction a as [|c a IH]; simpl; [reflexivity|].
  now rewrite IH, andb_assoc.
Qed.

Lemma count_app (a b : string) (c : ascii) :
  count (a ++ b) c = count a c + count b c.
Proof.
  induction a as [|x a IH]; simpl; [reflexivity|]. rewrite IH. lia.
Qed.

Lemma count_zero_includes (s : string) (c : ascii) :
  count s c = 0 -> includes s c = false.
Proof.
  induction s as [|x s IH]; simpl; [reflexivity|].
  destruct (Ascii.eqb x c); simpl; [discriminate | exact IH].
Qed.

Lemma includes_false_all_chars (s : string) (c : ascii) :
  includes s c = false <-> all_chars (fun x => negb (Ascii.eqb x c)) s = true.
Proof.
  induction s as [|x s IH]; simpl; [tauto|].
  destruct (Ascii.eqb x c); simpl; [split; discriminate | exact IH].
Qed.

Lemma split_first_none (s : string) (c : ascii) :
  includes s c = false -> split_first s c = None /\ split s c = [s].
Proof.
  induction s as [|x s IH]; simpl; [auto|].
  destruct (Ascii.eqb x c); simpl; [discriminate|].
  intros H. destruct (IH H) as [-> ->]. auto.
Qed.

Lemma split_first_some (s : string) (c : ascii) :
  includes s c = true ->
  exists a b, split_first s c = Some (a, b)
              /\ s = (a ++ String c b)%string
              /\ split s c = a :: split b c.
Proof.
  induction s as [|x s IH]; simpl; [discriminate|].
  destruct (Ascii.eqb_spec x c) as [->|N]; simpl.
  - intros _. exists EmptyString, s. auto.
  - intros H. destruct (IH H) as [a [b [-> [E ->]]]].
    exists (String x a), b. simpl. now rewrite <- E.
Qed.

(** Every character a pattern lets through satisfies what each of its
    atoms guarantees. *)
Lemma test_all_chars (p : ascii -> bool) (pattern : list atom) (s : string) :
  (forall a c, In a pattern -> atom_matches a c = true -> p c = true) ->
  test pattern s = true -> all_chars p s = true.
Proof.
  revert s; induction pattern as [|a pattern IH]; intros [|c s] F H;
    simpl in *; try discriminate; [reflexivity|].
  apply andb_true_iff in H as [H1 H2].
  rewrite (F a c (or_introl eq_refl) H1). apply IH; [|exact H2].
  intros a' c' I. apply F. now right.
Qed.

Lemma digit_is_plain (c : ascii) :
  isDigit c = true ->
  negb (isLineTerminator c) = true /\ negb (Ascii.eqb c "/") = true.
Proof.
  unfold isDigit, isLineTerminator. intros H.
  apply andb_true_iff in H as [L U].
  apply Nat.leb_le in L, U. split.
  - apply negb_true_iff, orb_false_iff. split; apply Nat.eqb_neq; lia.
  - apply negb_true_iff. destruct (Ascii.eqb_spec c "/") as [->|]; [|easy].
    cbv in L. lia.
Qed.

Lemma token_atoms_are_plain (a : atom) (c : ascii) :
  In a TANA_DATE_TIME_REGEX -> atom_matches a c = true ->
  negb (isLineTerminator c) && negb (Ascii.eqb c "/") = true.
Proof.
  intros I M. apply andb_true_iff.
  unfold TANA_DATE_TIME_REGEX, TANA_DATE_REGEX in I. simpl in I.
  repeat destruct I as [<-|I]; try contradiction; cbn [atom_matches] in M;
    try (now apply digit_is_plain);
    apply Ascii.eqb_eq in M; subst c; split; reflexivity.
Qed.

Lemma token_is_plain (s : string) :
  is_token s = true ->
  all_chars (fun c => negb (isLineTerminator c)) s = true
  /\ includes s "/" = false.
Proof.
  intros H.
  assert (all_chars (fun c => negb (isLineTerminator c)
                              && negb (Ascii.eqb c "/")) s = true) as A.
  { unfold is_token in H. apply orb_true_iff in H as [H|H].
    - apply (test_all_chars _ TANA_DATE_REGEX); [|exact H].
      intros a c I. apply token_atoms_are_plain.
      unfold TANA_DATE_TIME_REGEX. apply in_or_app. now left.
    - apply (test_all_chars _ TANA_DATE_TIME_REGEX); [|exact H].
      apply token_atoms_are_plain. }
  clear H. split; [|apply includes_false_all_chars];
    induction s as [|c s IH]; simpl in *; try reflexivity;
    apply andb_true_iff in A as [A1 A2];
    apply andb_true_iff in A1 as [A1 A1'];
    rewrite (IH A2); [now rewrite A1 | now rewrite A1'].
Qed.

Lemma strip_suffix_cons (p s : string) (c : ascii) :
  strip_suffix p s <> None -> strip_suffix p (String c s) <> None.
Proof.
  intros H. cbn [strip_suffix].
  destruct (String.eqb (String c s) p); [discriminate|].
  destruct (strip_suffix p s); [discriminate | contradiction].
Qed.

Lemma endsWith_after_prefix (q p s : string) :
  strip_suffix p s <> None -> endsWith (q ++ s) p = true.
Proof.
  intros H. unfold endsWith.
  assert (strip_suffix p (q ++ s) <> None) as N.
  { induction q as [|c q IH]; [exact H|]. simpl append.
    now apply strip_suffix_cons. }
  now destruct (strip_suffix p (q ++ s)).
Qed.

(** On a content with at most one [/], the code decides as the
    specification's recognizer does. *)
Lemma validate_content (value rest content : string) :
  strip_prefix "[[date:" value = Some rest ->
  strip_suffix "]]" rest = Some content ->
  count content "/" <= 1 ->
  validateTanaDateValue value = recognize value.
Proof.
  intros P Sx C. unfold validateTanaDateValue, recognize, match_date_literal.
  unfold startsWith. rewrite P.
  rewrite (strip_prefix_sound _ _ _ P) at 1.
  rewrite endsWith_after_prefix by (rewrite Sx; discriminate).
  cbn [negb orb]. rewrite Sx.
  destruct (includes content "/") eqn:I.
  - destruct (split_first_some _ _ I) as [a [b [F [E Sp]]]].
    rewrite F.
    assert (includes b "/" = false) as Ib.
    { apply count_zero_includes. rewrite E, count_app in C. simpl in C. lia. }
    destruct (split_first_none _ _ Ib) as [_ Sb].
    destruct (truthy content
              && all_chars (fun c => negb (isLineTerminator c)) content)
      eqn:G.
    + apply andb_true_iff in G as [G _]. unfold truthy in G.
      apply negb_true_iff in G. rewrite G, I. cbn [negb].
      rewrite Sp, Sb. cbn [nth_error falsy test_part]. unfold truthy, is_token.
      destruct (isEmpty (trim content)); [reflexivity|].
      destruct (isEmpty a), (isEmpty b); reflexivity.
    + destruct (isEmpty (trim content)); [reflexivity|].
      apply andb_false_iff in G as [G|G].
      * rewrite E in G. destruct a; discriminate.
      * rewrite E, all_chars_app in G. simpl in G.
        destruct (is_token a) eqn:Ta.
        -- destruct (is_token b) eqn:Tb.
           ++ rewrite (proj1 (token_is_plain _ Ta)),
                (proj1 (token_is_plain _ Tb)) in G. discriminate.
           ++ now rewrite !andb_false_r.
        -- now rewrite !andb_false_r.
  - destruct (split_first_none _ _ I) as [-> _].
    destruct (truthy content
              && all_chars (fun c => negb (isLineTerminator c)) content)
      eqn:G.
    + apply andb_true_iff in G as [G _]. unfold truthy in G.
      apply negb_true_iff in G. rewrite G, I. reflexivity.
    + destruct (isEmpty (trim content)) eqn:T; [reflexivity|].
      apply andb_false_iff in G as [G|G].
      * destruct content; [discriminate T | discriminate G].
      * destruct (is_token content) eqn:Tc; [|reflexivity].
        rewrite (proj1 (token_is_plain _ Tc)) in G. discriminate.
Qed.

Lemma includes_false_count (s : string) (c : ascii) :
  includes s c = false -> count s c = 0.
Proof.
  induction s as [|x s IH]; simpl; [reflexivity|].
  destruct (Ascii.eqb x c); simpl; [discriminate | exact IH].
Qed.

(** The code and the specification's recognizer agree on every input with
    at most one [/]. *)
Theorem validate_agrees_with_recognize (value : string) :
  count value "/" <= 1 ->
  validateTanaDateValue value = recognize value.
Proof.
  intros C.
  destruct (strip_prefix "[[date:" value) as [rest|] eqn:P.
  - destruct (strip_suffix "]]" rest) as [content|] eqn:Sx.
    + apply (validate_content value rest content P Sx).
      rewrite (strip_prefix_sound _ _ _ P),
        (strip_suffix_sound _ _ _ Sx), !count_app in C.
      lia.
    + unfold validateTanaDateValue, recognize, match_date_literal.
      rewrite P, Sx. now destruct (_ || _).
  - unfold validateTanaDateValue, recognize, startsWith. now rewrite P.
Qed.

Lemma validate_agrees_with_recognize_witness :
  validateTanaDateValue "[[date:2025-06-18T08:00/2025-06-19]]"
  = recognize "[[date:2025-06-18T08:00/2025-06-19]]".
Proof.
  apply (validate_agrees_with_recognize
           "[[date:2025-06-18T08:00/2025-06-19]]").
  cbv. lia.
Defined.

(** Whatever the specification's recognizer accepts, the code accepts. *)
Theorem recognized_is_validated (value : string) :
  recognize value = true -> validateTanaDateValue value = true.
Proof.
  intros R. pose proof R as R'. unfold recognize in R'.
  destruct (strip_prefix "[[date:" value) as [rest|] eqn:P; [|discriminate].
  destruct (strip_suffix "]]" rest) as [content|] eqn:Sx; [|discriminate].
  rewrite (validate_content value rest content P Sx); [exact R|].
  destruct (isEmpty (trim content)); [discriminate|].
  destruct (includes content "/") eqn:I.
  - destruct (split_first_some _ _ I) as [a [b [F [E _]]]].
    rewrite F in R'.
    apply andb_true_iff in R' as [R' Tb].
    apply andb_true_iff in R' as [_ Ta].
    rewrite E, count_app. simpl.
    rewrite (includes_false_count _ _ (proj2 (token_is_plain _ Ta))),
      (includes_false_count _ _ (proj2 (token_is_plain _ Tb))).
    reflexivity.
  - rewrite (includes_false_count _ _ I). lia.
Qed.

(** So the inputs on which the code departs from the recognizer are inputs
    with two or more [/], which the code accepts. *)
Theorem validated_beyond_recognize (value : string) :
  validateTanaDateValue value <> recognize value ->
  validateTanaDateValue value = true
  /\ recognize value = false
  /\ 2 <= count value "/".
Proof.
  intros N.
  assert (2 <= count value "/") as C.
  { destruct (le_lt_dec (count value "/") 1) as [L|L]; [|exact L].
    now apply validate_agrees_with_recognize in L. }
  destruct (recognize value) eqn:R.
  - now rewrite (recognized_is_validated _ R) in N.
  - destruct (validateTanaDateValue value); [auto | contradiction].
Qed.

End RecognizeFacts.

(** ** The service *)

Module ServiceFacts.
Import Js TanaDate Schemas Service Trace Spec StringFacts.

(** *** Output serialization *)

Lemma reduce_written (event : gc.CalendarEvent) (calendarId : string)
  (n : nat) (l : EventFieldsToReturn) :
  forall (i : nat) (acc : string),
    n = i + List.length l ->
    reduce
      (fun acc f index =>
         bind_result
           (if String.eqb f.(property) "calendarId"
            then Ok (gc.JsString calendarId)
            else gc.read (Some event) (fun e => gc.get e f.(property)))
           (fun value =>
              if gc.truthy value
              then Ok (acc ++ f.(field) ++ "::" ++ gc.toString value
                       ++ (if (1 <? n)%nat && negb (index =? n - 1)%nat
                           then Js.nl else EmptyString))%string
              else Ok acc))
      l i acc
    = Ok (acc ++ written event calendarId l)%string.
Proof.
  induction l as [|f l IH]; intros i acc Hn.
  - simpl. now rewrite append_empty_r.
  - cbn [reduce written].
    assert ((if String.eqb f.(property) "calendarId"
             then Ok (gc.JsString calendarId)
             else gc.read (Some event) (fun e => gc.get e f.(property)))
            = Ok (resolve event calendarId f)) as ->.
    { unfold resolve, gc.read. now destruct (String.eqb _ _). }
    cbn [bind_result].
    destruct (gc.truthy (resolve event calendarId f)) eqn:T.
    + cbn [bind_result]. rewrite IH by (simpl in Hn; lia).
      f_equal. unfold line. rewrite !append_assoc. do 4 f_equal.
      destruct l as [|g l].
      * simpl in Hn.
        replace (i =? n - 1)%nat with true
          by (symmetry; apply Nat.eqb_eq; lia).
        now rewrite andb_false_r.
      * simpl in Hn.
        replace (1 <? n)%nat with true
          by (symmetry; apply Nat.ltb_lt; lia).
        replace (i =? n - 1)%nat with false
          by (symmetry; apply Nat.eqb_neq; lia).
        reflexivity.
    + cbn [bind_result]. rewrite IH by (simpl in Hn; lia). reflexivity.
Qed.

Lemma buildTanaPaste_written (event : gc.CalendarEvent) (calendarId : string)
  (fields : EventFieldsToReturn) :
  buildTanaPaste (Some event) calendarId fields
  = Ok (written event calendarId fields).
Proof.
  unfold buildTanaPaste.
  now rewrite (reduce_written event calendarId (List.length fields) fields 0
                 EmptyString eq_refl).
Qed.

Lemma emitted_nil_last_omitted (event : gc.CalendarEvent)
  (calendarId : string) (f : FieldToReturn) (fields : EventFieldsToReturn) :
  emitted event calendarId (f :: fields) = [] ->
  last_omitted event calendarId (f :: fields) = true.
Proof.
  revert f; induction fields as [|g l IH]; intros f; unfold emitted.
  - cbn [filter last_omitted].
    now destruct (gc.truthy (resolve event calendarId f)).
  - intros H. cbn [last_omitted]. apply IH. unfold emitted.
    cbn [filter] in H |- *.
    destruct (gc.truthy (resolve event calendarId f)); [discriminate|].
    exact H.
Qed.

(** What the code writes is the joined lines of the specification, then a
    newline when the last selected field was skipped after a line was
    written. *)
Lemma written_serialize (event : gc.CalendarEvent) (calendarId : string)
  (fields : EventFieldsToReturn) :
  written event calendarId fields
  = (serialize event calendarId fields
     ++ trailer event calendarId fields)%string.
Proof.
  induction fields as [|f l IH]; [reflexivity|].
  cbn [written]. unfold serialize, trailer, emitted in *.
  cbn [filter].
  destruct (gc.truthy (resolve event calendarId f)) eqn:T.
  - cbn [map String.concat]. destruct l as [|g l].
    + cbn [filter map last_omitted written]. rewrite T. simpl.
      now rewrite !append_empty_r.
    + rewrite IH.
      destruct (filter (fun f0 => gc.truthy (resolve event calendarId f0))
                  (g :: l)) as [|h t] eqn:F.
      * pose proof (emitted_nil_last_omitted event calendarId g l F) as L.
        cbn [last_omitted] in L |- *. rewrite L.
        cbn [map String.concat]. now rewrite !append_empty_r.
      * cbn [map String.concat last_omitted].
        now rewrite !append_assoc.
  - rewrite IH. simpl append at 1. destruct l as [|g l].
    + reflexivity.
    + cbn [last_omitted]. reflexivity.
Qed.

(** The text the code returns for a record. *)
Lemma buildTanaPaste_text (event : gc.CalendarEvent) (calendarId : string)
  (fields : EventFieldsToReturn) :
  buildTanaPaste (Some event) calendarId fields
  = Ok (serialize event calendarId fields
        ++ trailer event calendarId fields)%string.
Proof. now rewrite buildTanaPaste_written, written_serialize. Qed.

(** It is the specification's text whenever the last selected field has a
    truthy value. *)
Lemma buildTanaPaste_serialize (event : gc.CalendarEvent)
  (calendarId : string) (fields : EventFieldsToReturn) :
  last_omitted event calendarId fields = false ->
  buildTanaPaste (Some event) calendarId fields
  = Ok (serialize event calendarId fields).
Proof.
  intros L. rewrite buildTanaPaste_text. unfold trailer. rewrite L.
  destruct (emitted event calendarId fields); now rewrite append_empty_r.
Qed.

(** With the default selection, whose last field is the calendar id, the
    text is the specification's for every record and every non-empty
    calendar id. *)
Lemma default_selection_is_serialized (event : gc.CalendarEvent)
  (calendarId : string) :
  calendarId <> EmptyString ->
  buildTanaPaste (Some event) calendarId DEFAULT_FIELDS_TO_RETURN
  = Ok (serialize event calendarId DEFAULT_FIELDS_TO_RETURN).
Proof.
  intros N. apply buildTanaPaste_serialize.
  destruct calendarId; [contradiction | reflexivity].
Qed.

(** C1. On the selection [Event ID] from [id], then [Event URL] from
    [htmlLink], over any record with [id = "abc"] and [htmlLink = ""], the
    code returns [Event ID::abc] followed by a newline, where the joined
    lines of the specification are [Event ID::abc] alone: the newline is
    decided by the index of the field, not by whether a line follows. *)
Theorem newline_left_after_omitted_last_field (event : gc.CalendarEvent)
  (calendarId : string) :
  event.(gc.id) = gc.Val "abc" ->
  event.(gc.htmlLink) = gc.Val EmptyString ->
  buildTanaPaste (Some event) calendarId Sample.id_then_url
  = Ok ("Event ID::abc" ++ nl)%string
  /\ serialize event calendarId Sample.id_then_url = "Event ID::abc".
Proof.
  intros Hid Hurl. rewrite buildTanaPaste_written.
  unfold serialize, emitted, Sample.id_then_url.
  cbn [written filter map]. unfold line, resolve, gc.get.
  cbn [property field String.eqb Ascii.eqb Bool.eqb].
  rewrite Hid, Hurl. split; reflexivity.
Qed.

Lemma newline_left_after_omitted_last_field_witness :
  buildTanaPaste (Some (Sample.event "abc" EmptyString)) "primary"
    Sample.id_then_url
  = Ok ("Event ID::abc" ++ nl)%string.
Proof.
  exact (proj1 (newline_left_after_omitted_last_field
                  (Sample.event "abc" EmptyString) "primary"
                  eq_refl eq_refl)).
Defined.

(** *** The merge *)

Lemma strict_eq_eq (x y : gc.nullable string) :
  gc.strict_eq x y = true <-> x = y.
Proof.
  destruct x as [| |a], y as [| |b]; simpl; split; intros H;
    try reflexivity; try discriminate.
  - apply String.eqb_eq in H. now subst.
  - inversion H. apply String.eqb_refl.
Qed.

Lemma strict_neq_false (x y : gc.nullable string) :
  gc.strict_neq x y = false <-> x = y.
Proof.
  unfold gc.strict_neq. rewrite negb_false_iff. apply strict_eq_eq.
Qed.

Lemma differs_false (rebuilt : EventDateTime)
  (current : gc.nullable gc.Schema_EventDateTime) :
  differs rebuilt current = false
  <-> (point rebuilt).(gc.dateTime) = dateTime_of current
      /\ (point rebuilt).(gc.date) = date_of current.
Proof.
  unfold differs. rewrite orb_false_iff, !strict_neq_false. reflexivity.
Qed.

(** A guarded copy on a record does not throw, and leaves alone whatever
    its assignment leaves alone. *)
Lemma copy_if_changed_frame {A} (get : gc.CalendarEvent -> A)
  (incoming : option string) (event : gc.CalendarEvent)
  (current : gc.CalendarEvent -> gc.nullable string)
  (assign : gc.nullable string -> gc.CalendarEvent -> gc.CalendarEvent)
  (u : gc.CalendarEvent) :
  (forall v x, get (assign v x) = get x) ->
  exists u', copy_if_changed incoming (Some event) current assign u = Ok u'
             /\ get u' = get u.
Proof.
  intros F. unfold copy_if_changed, gc.read.
  destruct incoming as [v|]; cbn [bind_result]; [|now exists u].
  destruct (gc.strict_neq (gc.Val v) (current event)); eexists; split;
    try reflexivity. apply F.
Qed.

(** With a date among the incoming fields, a merge over a record succeeds
    only if the time builder does, and then: the start is the rebuilt one
    when it differs from the record's, and the end is the rebuilt one when
    either the start or the end differs. *)
Lemma merge_date (event : gc.CalendarEvent) (data : PartialEventData.t)
  (date : TanaDateInfo) (merged : gc.CalendarEvent) :
  data.(PartialEventData.date) = Some date ->
  mergeEventData (Some event) data = Ok merged ->
  exists info,
    buildEventDateTimeInfo date
      (or_else data.(PartialEventData.timeZone) "Etc/UTC") = Ok info
    /\ merged.(gc.start)
       = (if differs info.(info_start) event.(gc.start)
          then gc.Val (point info.(info_start)) else event.(gc.start))
    /\ merged.(gc.end_)
       = (if differs info.(info_start) event.(gc.start)
             || differs info.(info_end) event.(gc.end_)
          then gc.Val (point info.(info_end)) else event.(gc.end_)).
Proof.
  intros D. unfold mergeEventData. rewrite D.
  set (both := fun e : gc.CalendarEvent => (e.(gc.start), e.(gc.end_))).
  destruct (copy_if_changed_frame both data.(PartialEventData.name) event
              gc.summary gc.with_summary event) as [u1 [-> F1]];
    [reflexivity|].
  cbn [bind_result].
  destruct (copy_if_changed_frame both data.(PartialEventData.description)
              event gc.description gc.with_description u1) as [u2 [-> F2]];
    [reflexivity|].
  cbn [bind_result].
  destruct (copy_if_changed_frame both data.(PartialEventData.location)
              event gc.location gc.with_location u2) as [u3 [-> F3]];
    [reflexivity|].
  cbn [bind_result].
  assert (u3.(gc.start) = event.(gc.start) /\ u3.(gc.end_) = event.(gc.end_))
    as [S3 E3].
  { rewrite F2, F1 in F3. unfold both in F3. now inversion F3. }
  destruct (buildEventDateTimeInfo date _) as [info|e]; [|discriminate].
  cbn [bind_result gc.read]. intros [= <-]. exists info.
  split; [reflexivity|].
  destruct (differs (info_start info) (gc.start event)),
    (differs (info_end info) (gc.end_ event)); cbn; auto.
Qed.

(** Without a record in hand, only a field set with none of [name],
    [description], [location] and [date] gets through the merge. *)
Lemma merge_without_record (data : PartialEventData.t)
  (merged : gc.CalendarEvent) :
  mergeEventData None data = Ok merged ->
  data.(PartialEventData.name) = None
  /\ data.(PartialEventData.description) = None
  /\ data.(PartialEventData.location) = None
  /\ data.(PartialEventData.date) = None.
Proof.
  unfold mergeEventData, copy_if_changed, gc.read.
  destruct data as [[n|] [d|] [de|] tz [l|]]; cbn; try discriminate;
    try (destruct (buildEventDateTimeInfo _ _); cbn; discriminate).
  auto.
Qed.

Lemma merge_name_only (event : gc.CalendarEvent) (n : string)
  (merged : gc.CalendarEvent) :
  mergeEventData (Some event) (PartialEventData.only_name n) = Ok merged ->
  merged = gc.with_summary (gc.Val n) event.
Proof.
  unfold mergeEventData, copy_if_changed, gc.read, PartialEventData.only_name.
  cbn.
  destruct (gc.strict_neq (gc.Val n) (gc.summary event)) eqn:E; cbn;
    intros [= <-]; [reflexivity|].
  apply strict_neq_false in E. destruct event; cbn in *. now rewrite <- E.
Qed.

(** *** The update, call by call *)

Ltac flow_step :=
  cbn [run bind_async lift calls outcome final submissions_from answered];
  match goal with
  | |- context [respond ?B ?c ?s] =>
      destruct (respond B c s) as [[[?|]|?] ?] eqn:?
  | |- context [lift (mergeEventData ?e ?d)] =>
      destruct (mergeEventData e d) eqn:?
  | |- context [lift (buildTanaPaste ?e ?c ?f)] =>
      destruct (buildTanaPaste e c f) eqn:?
  | |- context [(0 <? ?n)%nat] => destruct (0 <? n)%nat eqn:?
  | |- context [truthy ?t && negb (String.eqb ?t ?f)] =>
      destruct (truthy t && negb (String.eqb t f)) eqn:?
  end.

Ltac flow_done :=
  cbn [run bind_async lift calls outcome final submissions_from answered
       In fst List.length].

(** Whatever the backend answers, a record handed to [gc.updateEvent] is
    the merge of the incoming fields into the record of the answer just
    before; it goes to the calendar that holds the event; and when no move
    is asked for, that answer is the one to the fetch. *)
Lemma update_submissions {S} (B : Backend S) (s : S)
  (accessToken fromCalendarId eventId : string) (data : PartialEventData.t)
  (options : EventOptions) (toCalendarId : option string) (sub : Submission) :
  In sub (submissions (calls (run B
     (updateEvent accessToken fromCalendarId eventId data options
        toCalendarId) s))) ->
  mergeEventData sub.(held) data = Ok sub.(submitted)
  /\ sub.(target) = destination toCalendarId fromCalendarId
  /\ (moves toCalendarId fromCalendarId = false ->
      fst (respond B (gc.getEvent accessToken fromCalendarId eventId) s)
      = Ok sub.(held)).
Proof.
  unfold updateEvent, await, submissions, destination, moves.
  destruct toCalendarId as [to|]; repeat flow_step; flow_done;
    try (intros []; fail).
  all: intros [<-|[]]; cbn [held target submitted]; repeat split;
    congruence.
Qed.

(** At most one record is handed to [gc.updateEvent]. *)
Lemma update_submits_once {S} (B : Backend S) (s : S)
  (accessToken fromCalendarId eventId : string) (data : PartialEventData.t)
  (options : EventOptions) (toCalendarId : option string) :
  List.length (submissions (calls (run B
     (updateEvent accessToken fromCalendarId eventId data options
        toCalendarId) s))) <= 1.
Proof.
  unfold updateEvent, await, submissions.
  destruct toCalendarId as [to|]; repeat flow_step; flow_done; lia.
Qed.

(** When the fetch answers a record, no move is asked for, the field set is
    not empty and the merge succeeds, the merge is handed to
    [gc.updateEvent] on the source calendar, once. *)
Lemma update_submits_the_merge {S} (B : Backend S) (s s1 : S)
  (accessToken fromCalendarId eventId : string) (data : PartialEventData.t)
  (options : EventOptions) (toCalendarId : option string)
  (event merged : gc.CalendarEvent) :
  moves toCalendarId fromCalendarId = false ->
  respond B (gc.getEvent accessToken fromCalendarId eventId) s
  = (Ok (Some event), s1) ->
  PartialEventData.keys data <> [] ->
  mergeEventData (Some event) data = Ok merged ->
  submissions (calls (run B
     (updateEvent accessToken fromCalendarId eventId data options
        toCalendarId) s))
  = [{| held := Some event; target := fromCalendarId;
        submitted := merged |}].
Proof.
  intros M G K Mg. unfold updateEvent, await, submissions.
  cbn [bind_async run]. rewrite G.
  assert ((0 <? List.length (PartialEventData.keys data))%nat = true) as ->.
  { destruct (PartialEventData.keys data); [contradiction | reflexivity]. }
  unfold moves in M.
  destruct toCalendarId as [to|]; [rewrite M|];
    cbn [bind_async lift run]; rewrite Mg; cbn [bind_async lift run];
    destruct (respond B _ s1) as [[upd|e] s2];
    cbn [bind_async lift run calls submissions_from answered];
    try reflexivity;
    destruct (buildTanaPaste upd fromCalendarId (fieldsToReturn options));
    reflexivity.
Qed.

(** *** The claims on the update *)

(** C7. When the fetch from the source calendar yields no record, the
    update throws [Event not found: <id>]; the fetch is the only call of the
    run, so no move and no update is issued, and the backend is left in the
    state the fetch left it in. *)
Theorem missing_event_aborts_update {S} (B : Backend S) (s s1 : S)
  (accessToken fromCalendarId eventId : string) (data : PartialEventData.t)
  (options : EventOptions) (toCalendarId : option string) :
  respond B (gc.getEvent accessToken fromCalendarId eventId) s
  = (Ok None, s1) ->
  run B (updateEvent accessToken fromCalendarId eventId data options
           toCalendarId) s
  = {| outcome := Thrown (Error ("Event not found: " ++ eventId));
       final := s1;
       calls := [Called (gc.getEvent accessToken fromCalendarId eventId)
                   (Ok None)] |}.
Proof.
  intros G. unfold updateEvent, await. cbn [bind_async run].
  rewrite G. reflexivity.
Qed.

Lemma missing_event_aborts_update_witness :
  run (Sample.echo None)
    (updateEvent "token" "primary" "abc" (PartialEventData.only_name "Retro")
       DEFAULT_OPTIONS (Some "team")) tt
  = {| outcome := Thrown (Error "Event not found: abc");
       final := tt;
       calls := [Called (gc.getEvent "token" "primary" "abc") (Ok None)] |}.
Proof.
  exact (missing_event_aborts_update (Sample.echo None) tt tt
           "token" "primary" "abc" (PartialEventData.only_name "Retro")
           DEFAULT_OPTIONS
           (Some "team") eq_refl).
Defined.

Lemma nothing_appended (s t : string) :
  (s ++ t)%string = s -> t = EmptyString.
Proof.
  induction s as [|c s IH]; simpl; [easy|]. intros [= H]. now apply IH.
Qed.

(** C8. With an empty field set and no destination calendar, or the source
    as destination, the fetch is the only call of the run, whatever its
    answer: no move and no update is issued, the backend is left in the
    state the fetch left it in, and a failure of the fetch is the failure of
    the update.  When the fetch answers a record, the update returns the
    joined lines of the specification over that record and the source
    calendar, followed by a newline when a line was written and the last
    selected field was skipped; so the text returned is the specification's
    exactly when no line is written or the last selected field is. *)
Theorem empty_update_only_fetches {S} (B : Backend S) (s : S)
  (accessToken fromCalendarId eventId : string) (data : PartialEventData.t)
  (options : EventOptions) (toCalendarId : option string) :
  PartialEventData.keys data = [] ->
  toCalendarId = None \/ toCalendarId = Some fromCalendarId ->
  let r := run B (updateEvent accessToken fromCalendarId eventId data options
                    toCalendarId) s in
  let fetch := gc.getEvent accessToken fromCalendarId eventId in
  let fields := options.(fieldsToReturn) in
  r.(calls) = [Called fetch (fst (respond B fetch s))]
  /\ r.(final) = snd (respond B fetch s)
  /\ (forall e, fst (respond B fetch s) = Thrown e -> r.(outcome) = Thrown e)
  /\ forall event, fst (respond B fetch s) = Ok (Some event) ->
       r.(outcome)
       = Ok (serialize event fromCalendarId fields
             ++ trailer event fromCalendarId fields)%string
       /\ (r.(outcome) = Ok (serialize event fromCalendarId fields)
           <-> emitted event fromCalendarId fields = []
               \/ last_omitted event fromCalendarId fields = false).
Proof.
  intros K T. unfold updateEvent, await. rewrite K.
  assert (forall e : option gc.CalendarEvent,
             match toCalendarId with
             | Some to =>
                 if truthy to && negb (String.eqb to fromCalendarId)
                 then
                   bind_async
                     (Await (gc.moveEventToAnotherCalendar accessToken
                               fromCalendarId eventId to) Return)
                     (fun moved => Return (moved, to))
                 else Return (e, fromCalendarId)
             | None => Return (e, fromCalendarId)
             end = Return (e, fromCalendarId)) as M.
  { intros e. destruct T as [->| ->]; [reflexivity|].
    now rewrite String.eqb_refl, andb_false_r. }
  cbn [bind_async run List.length Nat.ltb Nat.leb].
  destruct (respond B (gc.getEvent accessToken fromCalendarId eventId) s)
    as [[[ev|]|e] s1] eqn:G; cbn [fst snd].
  - rewrite M. cbn [bind_async]. rewrite buildTanaPaste_text.
    cbn [lift run calls outcome final].
    split; [reflexivity|]. split; [reflexivity|]. split; [discriminate|].
    intros event [= <-]. split; [reflexivity|]. split.
    + intros [= A]. apply nothing_appended in A. unfold trailer in A.
      destruct (emitted ev fromCalendarId (fieldsToReturn options));
        [now left|].
      destruct (last_omitted ev fromCalendarId (fieldsToReturn options));
        [discriminate | now right].
    + unfold trailer.
      intros [->| ->];
        [|destruct (emitted ev fromCalendarId (fieldsToReturn options))];
        now rewrite append_empty_r.
  - cbn [run calls outcome final].
    split; [reflexivity|]. split; [reflexivity|]. split; discriminate.
  - cbn [calls outcome final].
    split; [reflexivity|]. split; [reflexivity|]. split; [|discriminate].
    now intros e' [= <-].
Qed.

(** The update of nothing, with the selection [Event ID], [Event URL], of a
    record without a link: one fetch, and the text is [Event ID::abc] with a
    newline after it, where the specification's text has none. *)
Lemma empty_update_only_fetches_witness :
  calls (run (Sample.echo (Some (Sample.event "abc" EmptyString)))
           (updateEvent "token" "primary" "abc" PartialEventData.empty
              {| prefix := None; suffix := None;
                 fieldsToReturn := Sample.id_then_url |}
              (Some "primary")) tt)
  = [Called (gc.getEvent "token" "primary" "abc")
       (Ok (Some (Sample.event "abc" EmptyString)))]
  /\ outcome (run (Sample.echo (Some (Sample.event "abc" EmptyString)))
                (updateEvent "token" "primary" "abc" PartialEventData.empty
                   {| prefix := None; suffix := None;
                      fieldsToReturn := Sample.id_then_url |}
                   (Some "primary")) tt)
     = Ok ("Event ID::abc" ++ nl)%string
  /\ serialize (Sample.event "abc" EmptyString) "primary" Sample.id_then_url
     = "Event ID::abc".
Proof.
  destruct (empty_update_only_fetches
              (Sample.echo (Some (Sample.event "abc" EmptyString))) tt
              "token" "primary" "abc" PartialEventData.empty
              {| prefix := None; suffix := None;
                 fieldsToReturn := Sample.id_then_url |}
              (Some "primary") eq_refl (or_intror eq_refl))
    as [C [_ [_ T]]].
  split; [exact C|].
  split; [exact (proj1 (T _ eq_refl)) | reflexivity].
Defined.

(** C9. In an update whose field set holds a new name only, a record handed
    to [gc.updateEvent] has the [start], [end], [location] and [description]
    of the fetched record, the record the client answered with just before
    (the answer to the fetch when no move is asked for); its title is the
    new name and every other property is the fetched record's. *)
Theorem renaming_keeps_the_other_fields {S} (B : Backend S) (s : S)
  (accessToken fromCalendarId eventId name : string)
  (options : EventOptions) (toCalendarId : option string)
  (sub : Submission) :
  In sub (submissions (calls (run B
     (updateEvent accessToken fromCalendarId eventId
        (PartialEventData.only_name name) options toCalendarId) s))) ->
  exists event,
    sub.(held) = Some event
    /\ (moves toCalendarId fromCalendarId = false ->
        fst (respond B (gc.getEvent accessToken fromCalendarId eventId) s)
        = Ok (Some event))
    /\ sub.(submitted).(gc.start) = event.(gc.start)
    /\ sub.(submitted).(gc.end_) = event.(gc.end_)
    /\ sub.(submitted).(gc.location) = event.(gc.location)
    /\ sub.(submitted).(gc.description) = event.(gc.description)
    /\ sub.(submitted) = gc.with_summary (gc.Val name) event.
Proof.
  intros H. apply update_submissions in H as [M [_ F]].
  destruct (held sub) as [event|] eqn:E.
  - exists event. apply merge_name_only in M. rewrite M.
    repeat split; try reflexivity. exact F.
  - apply merge_without_record in M as [M _]. discriminate.
Qed.

Lemma renaming_keeps_the_other_fields_witness :
  exists event,
    Some Sample.fetched = Some event
    /\ gc.start (gc.with_summary (gc.Val "Retro") Sample.fetched)
       = gc.start event
    /\ gc.end_ (gc.with_summary (gc.Val "Retro") Sample.fetched)
       = gc.end_ event.
Proof.
  destruct (renaming_keeps_the_other_fields
              (Sample.echo (Some Sample.fetched)) tt
              "token" "primary" "abc" "Retro" DEFAULT_OPTIONS None
              {| held := Some Sample.fetched; target := "primary";
                 submitted := gc.with_summary (gc.Val "Retro")
                                Sample.fetched |}
              (or_introl eq_refl))
    as [event [H [_ [Hs [He _]]]]].
  exists event. repeat split; assumption.
Defined.

(** C2, as the code has it.  In an update with a new date, a record handed
    to [gc.updateEvent] has the rebuilt start when that differs, in [date] or
    [dateTime], from the start of the fetched record, and the fetched start
    otherwise; it has the rebuilt end when the rebuilt end differs from the
    fetched end or when the start was replaced, and the fetched end
    otherwise.  So a range of which only the end changed leaves the start as
    fetched, while a range of which only the start changed has its end
    replaced by the rebuilt end along with the start. *)
Theorem end_is_replaced_with_start {S} (B : Backend S) (s : S)
  (accessToken fromCalendarId eventId : string) (data : PartialEventData.t)
  (options : EventOptions) (toCalendarId : option string)
  (date : TanaDateInfo) (sub : Submission) :
  data.(PartialEventData.date) = Some date ->
  In sub (submissions (calls (run B
     (updateEvent accessToken fromCalendarId eventId data options
        toCalendarId) s))) ->
  exists event info,
    sub.(held) = Some event
    /\ buildEventDateTimeInfo date
         (or_else data.(PartialEventData.timeZone) "Etc/UTC") = Ok info
    /\ sub.(submitted).(gc.start)
       = (if differs info.(info_start) event.(gc.start)
          then gc.Val (point info.(info_start)) else event.(gc.start))
    /\ sub.(submitted).(gc.end_)
       = (if differs info.(info_start) event.(gc.start)
             || differs info.(info_end) event.(gc.end_)
          then gc.Val (point info.(info_end)) else event.(gc.end_)).
Proof.
  intros D H. apply update_submissions in H as [M _].
  destruct (held sub) as [event|] eqn:E.
  - destruct (merge_date event data date _ D M) as [info [Bd [Hs He]]].
    exists event, info. auto.
  - apply merge_without_record in M as [_ [_ [_ M]]]. congruence.
Qed.

(** C2, as the claim has it, fails.  The fetched record runs from
    2025-06-18 to 2025-06-19; the update asks for
    [[[date:2025-06-17/2025-06-19]]].  Only the start has changed, and yet
    the end handed to [gc.updateEvent] is not the fetched end: it is the
    rebuilt one, with the default time zone. *)
Lemma end_rewritten_when_only_start_changed :
  buildEventDateTimeInfo Sample.start_a_day_earlier "Etc/UTC"
  = Ok {| info_start := AllDay "2025-06-17" "Etc/UTC";
          info_end := AllDay "2025-06-19" "Etc/UTC" |}
  /\ differs (AllDay "2025-06-17" "Etc/UTC") Sample.fetched.(gc.start) = true
  /\ differs (AllDay "2025-06-19" "Etc/UTC") Sample.fetched.(gc.end_) = false
  /\ submissions (calls (run (Sample.echo (Some Sample.fetched))
        (updateEvent "token" "primary" "abc"
           (Sample.redate Sample.start_a_day_earlier None)
           DEFAULT_OPTIONS None) tt))
     = [{| held := Some Sample.fetched;
           target := "primary";
           submitted :=
             gc.with_end (gc.Val (point (AllDay "2025-06-19" "Etc/UTC")))
               (gc.with_start (gc.Val (point (AllDay "2025-06-17" "Etc/UTC")))
                  Sample.fetched) |}]
  /\ Sample.fetched.(gc.end_)
     = gc.Val {| gc.date := gc.Val "2025-06-19";
                 gc.dateTime := gc.Undefined;
                 gc.timeZone := gc.Undefined |}
  /\ gc.Val (point (AllDay "2025-06-19" "Etc/UTC"))
     = gc.Val {| gc.date := gc.Val "2025-06-19";
                 gc.dateTime := gc.Undefined;
                 gc.timeZone := gc.Val "Etc/UTC" |}
  /\ gc.Val (point (AllDay "2025-06-19" "Etc/UTC"))
     <> Sample.fetched.(gc.end_).
Proof.
  repeat split; try reflexivity. discriminate.
Qed.

Lemma end_is_replaced_with_start_witness :
  exists event info,
    Some Sample.fetched = Some event
    /\ buildEventDateTimeInfo Sample.start_a_day_earlier "Etc/UTC" = Ok info
    /\ gc.Val (point (AllDay "2025-06-17" "Etc/UTC"))
       = (if differs info.(info_start) event.(gc.start)
          then gc.Val (point info.(info_start)) else event.(gc.start)).
Proof.
  destruct (end_is_replaced_with_start
              (Sample.echo (Some Sample.fetched)) tt
              "token" "primary" "abc"
              (Sample.redate Sample.start_a_day_earlier None)
              DEFAULT_OPTIONS None Sample.start_a_day_earlier
              {| held := Some Sample.fetched; target := "primary";
                 submitted :=
                   gc.with_end (gc.Val (point (AllDay "2025-06-19" "Etc/UTC")))
                     (gc.with_start
                        (gc.Val (point (AllDay "2025-06-17" "Etc/UTC")))
                        Sample.fetched) |}
              eq_refl (or_introl eq_refl))
    as [event [info [H [Bd [Hs _]]]]].
  exists event, info. repeat split; assumption.
Defined.

(** C10. Whether a rebuilt point replaces the record's is decided by the
    [dateTime] and [date] strings alone: two comparisons that agree on those
    strings decide alike, whatever the time zones.  So in an update with a
    new date, when the rebuilt [date] and [dateTime] of both points are those
    of the fetched record, the record handed to [gc.updateEvent] keeps the
    fetched [start] and [end], time zones included, whatever time zone the
    update carries. *)
Theorem time_zone_is_not_compared :
  (forall rebuilt rebuilt' current current',
      (point rebuilt).(gc.dateTime) = (point rebuilt').(gc.dateTime) ->
      (point rebuilt).(gc.date) = (point rebuilt').(gc.date) ->
      dateTime_of current = dateTime_of current' ->
      date_of current = date_of current' ->
      differs rebuilt current = differs rebuilt' current')
  /\ (forall S (B : Backend S) (s : S)
        (accessToken fromCalendarId eventId : string)
        (data : PartialEventData.t) (options : EventOptions)
        (toCalendarId : option string) (date : TanaDateInfo)
        (sub : Submission),
         data.(PartialEventData.date) = Some date ->
         In sub (submissions (calls (run B
            (updateEvent accessToken fromCalendarId eventId data options
               toCalendarId) s))) ->
         exists event info,
           sub.(held) = Some event
           /\ buildEventDateTimeInfo date
                (or_else data.(PartialEventData.timeZone) "Etc/UTC")
              = Ok info
           /\ ((point info.(info_start)).(gc.dateTime)
               = dateTime_of event.(gc.start) ->
               (point info.(info_start)).(gc.date)
               = date_of event.(gc.start) ->
               (point info.(info_end)).(gc.dateTime)
               = dateTime_of event.(gc.end_) ->
               (point info.(info_end)).(gc.date)
               = date_of event.(gc.end_) ->
               sub.(submitted).(gc.start) = event.(gc.start)
               /\ sub.(submitted).(gc.end_) = event.(gc.end_))).
Proof.
  split.
  - intros p p' c c' H1 H2 H3 H4. unfold differs.
    now rewrite H1, H2, H3, H4.
  - intros S B s tok from id data options to date sub D H.
    apply update_submissions in H as [M _].
    destruct (held sub) as [event|] eqn:E.
    + destruct (merge_date event data date _ D M) as [info [Bd [Hs He]]].
      exists event, info. split; [reflexivity|]. split; [exact Bd|].
      intros S1 S2 E1 E2. rewrite Hs, He.
      rewrite (proj2 (differs_false _ _) (conj S1 S2)).
      now rewrite (proj2 (differs_false _ _) (conj E1 E2)).
    + apply merge_without_record in M as [_ [_ [_ M]]]. congruence.
Qed.

Lemma time_zone_is_not_compared_witness :
  map submitted
    (submissions (calls (run (Sample.echo (Some Sample.fetched_in_tokyo))
       (updateEvent "token" "primary" "abc"
          (Sample.redate Sample.same_days (Some "Europe/Paris"))
          DEFAULT_OPTIONS None) tt)))
  = [Sample.fetched_in_tokyo]
  /\ exists event info,
       Some Sample.fetched_in_tokyo = Some event
       /\ buildEventDateTimeInfo Sample.same_days "Europe/Paris" = Ok info
       /\ gc.start Sample.fetched_in_tokyo = gc.start event
       /\ gc.end_ Sample.fetched_in_tokyo = gc.end_ event.
Proof.
  split; [reflexivity|].
  destruct (proj2 time_zone_is_not_compared unit
              (Sample.echo (Some Sample.fetched_in_tokyo)) tt
              "token" "primary" "abc"
              (Sample.redate Sample.same_days (Some "Europe/Paris"))
              DEFAULT_OPTIONS None Sample.same_days
              {| held := Some Sample.fetched_in_tokyo; target := "primary";
                 submitted := Sample.fetched_in_tokyo |}
              eq_refl (or_introl eq_refl))
    as [event [info [H [Bd K]]]].
  exists event, info. split; [exact H|]. split; [exact Bd|].
  injection H as <-. cbn in Bd. injection Bd as <-.
  exact (K eq_refl eq_refl eq_refl eq_refl).
Defined.

End ServiceFacts.

(** * Further properties of the code *)

(** ** The date notation: what is accepted, and what comes out *)

Module NotationFacts.
Import Js TanaDate Spec Unparse StringFacts RecognizeFacts.

Lemma strip_prefix_complete (p r : string) :
  strip_prefix p (p ++ r) = Some r.
Proof.
  induction p as [|c p IH]; simpl; [now destruct r|].
  now rewrite Ascii.eqb_refl.
Qed.

Lemma length_app (a b : string) :
  String.length (a ++ b) = String.length a + String.length b.
Proof. induction a as [|c a IH]; simpl; [reflexivity | now rewrite IH]. Qed.

Lemma strip_suffix_complete (p r : string) :
  strip_suffix p (r ++ p) = Some r.
Proof.
  induction r as [|c r IH].
  - simpl append. destruct p; simpl; [reflexivity|].
    now rewrite Ascii.eqb_refl, String.eqb_refl.
  - simpl append. cbn [strip_suffix].
    destruct (String.eqb_spec (String c (r ++ p)) p) as [E|_].
    + apply (f_equal String.length) in E. simpl in E.
      rewrite length_app in E. lia.
    + now rewrite IH.
Qed.

Lemma split_pieces (s : string) (c : ascii) :
  exists p ps, split s c = p :: ps.
Proof.
  induction s as [|x s [p [ps IH]]]; simpl; [now eexists; eexists|].
  destruct (Ascii.eqb x c); [now eexists; eexists|].
  rewrite IH. now eexists; eexists.
Qed.

(** What the validator has checked when it answers [true]. *)
Lemma validated_parts (value : string) :
  validateTanaDateValue value = true ->
  exists content,
    match_date_literal value = Some content
    /\ value = ("[[date:" ++ content ++ "]]")%string
    /\ all_chars (fun c => negb (isLineTerminator c)) content = true
    /\ ((includes content "/" = false /\ is_token content = true)
        \/ (includes content "/" = true
            /\ exists a b ps,
                 split content "/" = a :: b :: ps
                 /\ is_token a = true /\ is_token b = true)).
Proof.
  unfold validateTanaDateValue.
  destruct (negb (startsWith value "[[date:") || negb (endsWith value "]]"));
    [discriminate|].
  destruct (match_date_literal value) as [content|] eqn:M; [|discriminate].
  intros H. exists content. split; [reflexivity|].
  unfold match_date_literal in M.
  destruct (strip_prefix "[[date:" value) as [rest|] eqn:P; [|discriminate].
  destruct (strip_suffix "]]" rest) as [group|] eqn:Sx; [|discriminate].
  destruct (truthy group && all_chars _ group) eqn:G; [|discriminate].
  injection M as ->. apply andb_true_iff in G as [_ G].
  split.
  { rewrite (strip_prefix_sound _ _ _ P), (strip_suffix_sound _ _ _ Sx).
    reflexivity. }
  split; [exact G|].
  destruct (isEmpty content); [discriminate|].
  destruct (isEmpty (trim content)); [discriminate|].
  destruct (includes content "/") eqn:I; cbn [negb] in H.
  - right. split; [reflexivity|].
    destruct (split content "/") as [|a [|b ps]];
      cbn [nth_error falsy test_part orb] in H.
    + discriminate.
    + rewrite orb_true_r in H. discriminate.
    + exists a, b, ps. split; [reflexivity|].
      destruct (isEmpty a || isEmpty b); [discriminate|].
      now apply andb_true_iff in H.
  - left. now split.
Qed.

Lemma extract_of_validated (value : string) :
  validateTanaDateValue value = true ->
  exists s e,
    extractTanaDateInfo value
    = {| original := value; start := s; end_ := e |}
    /\ is_token s = true
    /\ (forall x, e = Some x -> is_token x = true)
    /\ exists rest,
         value
         = ("[[date:" ++ s
            ++ match e with Some x => "/" ++ x | None => EmptyString end
            ++ rest ++ "]]")%string
         /\ (e = None -> rest = EmptyString)
         /\ (rest = EmptyString \/ exists r, rest = String "/" r).
Proof.
  intros V.
  destruct (validated_parts value V) as [content [M [E [_ [[I T]|[I R]]]]]];
    unfold extractTanaDateInfo; rewrite M, I; cbn [negb].
  - exists content, None. repeat split; try assumption; try discriminate.
    exists EmptyString. repeat split; auto.
  - destruct R as [a [b [ps [Sp [Ta Tb]]]]]. rewrite Sp.
    exists a, (Some b). split; [reflexivity|]. split; [exact Ta|].
    split; [now intros x [= <-]|].
    destruct (split_first_some _ _ I) as [a' [b' [_ [Ec Sp']]]].
    rewrite Sp in Sp'. injection Sp' as <- Sb.
    destruct (includes b' "/") eqn:Ib.
    + destruct (split_first_some _ _ Ib) as [b2 [r [_ [Eb Sb']]]].
      rewrite Sb' in Sb. injection Sb as <- _.
      exists (String "/" r). split.
      * rewrite E, Ec, Eb.
        repeat (progress (rewrite ?append_assoc; cbn [append])).
        reflexivity.
      * split; [discriminate | right; now exists r].
    + destruct (split_first_none _ _ Ib) as [_ Sb'].
      rewrite Sb' in Sb. injection Sb as <- _.
      exists EmptyString. split.
      * rewrite E, Ec.
        repeat (progress (rewrite ?append_assoc; cbn [append])).
        reflexivity.
      * split; [discriminate | now left].
Qed.

Lemma split_two (content a b : string) (ps : list string) :
  includes content "/" = true ->
  split content "/" = a :: b :: ps ->
  exists rest,
    content = (a ++ String "/" (b ++ rest))%string
    /\ ps = match rest with
            | EmptyString => []
            | String _ r => split r "/"
            end
    /\ (rest = EmptyString \/ exists r, rest = String "/" r).
Proof.
  intros I Sp.
  destruct (split_first_some _ _ I) as [a' [b' [_ [Ec Sp']]]].
  rewrite Sp in Sp'. injection Sp' as <- Sb.
  destruct (includes b' "/") eqn:Ib.
  - destruct (split_first_some _ _ Ib) as [b2 [r [_ [Eb Sb']]]].
    rewrite Sb' in Sb. injection Sb as <- ->.
    exists (String "/" r). rewrite Ec, Eb. repeat split.
    right. now exists r.
  - destruct (split_first_none _ _ Ib) as [_ Sb'].
    rewrite Sb' in Sb. injection Sb as <- ->.
    exists EmptyString. rewrite Ec, append_empty_r. repeat split. now left.
Qed.

Lemma includes_app (a b : string) (c : ascii) :
  includes (a ++ b) c = includes a c || includes b c.
Proof.
  induction a as [|x a IH]; simpl; [reflexivity|].
  now rewrite IH, orb_assoc.
Qed.

Lemma split_app (a s : string) (c : ascii) :
  includes a c = false ->
  split (a ++ String c s) c = a :: split s c.
Proof.
  induction a as [|x a IH]; simpl.
  - intros _. now rewrite Ascii.eqb_refl.
  - destruct (Ascii.eqb x c); simpl; [discriminate|].
    intros H. now rewrite (IH H).
Qed.

Lemma token_head (s : string) :
  is_token s = true ->
  exists c s', s = String c s' /\ isWhiteSpace c = false.
Proof.
  intros T. destruct s as [|c s]; [discriminate|].
  exists c, s. split; [reflexivity|].
  assert (isDigit c = true) as D.
  { unfold is_token in T. apply orb_true_iff in T as [T|T]; simpl in T;
      now apply andb_true_iff in T as [T _]. }
  unfold isDigit in D. apply andb_true_iff in D as [L U].
  apply Nat.leb_le in L, U. unfold isWhiteSpace.
  repeat (apply orb_false_iff; split);
    try (apply Nat.eqb_neq; lia).
  apply andb_false_iff. right. apply Nat.leb_gt. lia.
Qed.

Lemma trim_head (c : ascii) (s : string) :
  isWhiteSpace c = false -> isEmpty (trim (String c s)) = false.
Proof.
  intros W. unfold trim. cbn [trimStart]. rewrite W. cbn [trimEnd].
  destruct (trimEnd s); [now rewrite W | reflexivity].
Qed.

(** The validator accepts a value exactly when its content, between the
    brackets and free of line terminators, is a token, or starts with two
    tokens around a [/], followed by nothing or by a [/] and anything. *)
Lemma validate_content_accepted (content : string) :
  all_chars (fun c => negb (isLineTerminator c)) content = true ->
  (is_token content = true
   \/ exists a b rest,
        content = (a ++ String "/" (b ++ rest))%string
        /\ is_token a = true /\ is_token b = true
        /\ (rest = EmptyString \/ exists r, rest = String "/" r)) ->
  validateTanaDateValue ("[[date:" ++ content ++ "]]") = true
  /\ match_date_literal ("[[date:" ++ content ++ "]]") = Some content.
Proof.
  intros A H.
  assert (exists c s', content = String c s' /\ isWhiteSpace c = false)
    as [c [s' [Ec W]]].
  { destruct H as [T|[a [b [rest [E [Ta _]]]]]].
    - now apply token_head.
    - destruct (token_head _ Ta) as [c [a' [-> W]]].
      exists c, (a' ++ String "/" (b ++ rest))%string. now rewrite E. }
  assert (match_date_literal ("[[date:" ++ content ++ "]]") = Some content)
    as M.
  { unfold match_date_literal.
    rewrite (strip_prefix_complete "[[date:" (content ++ "]]")).
    rewrite strip_suffix_complete, A. now rewrite Ec. }
  split; [|exact M].
  unfold validateTanaDateValue, startsWith.
  rewrite (strip_prefix_complete "[[date:" (content ++ "]]")).
  rewrite endsWith_after_prefix
    by (rewrite strip_suffix_complete; discriminate).
  cbn [negb orb]. rewrite M.
  assert (isEmpty content = false) as -> by now rewrite Ec.
  assert (isEmpty (trim content) = false) as ->
      by (rewrite Ec; now apply trim_head).
  destruct H as [T|[a [b [rest [E [Ta [Tb R]]]]]]].
  - rewrite (proj2 (token_is_plain _ T)). exact T.
  - assert (includes content "/" = true) as ->.
    { rewrite E, includes_app. simpl. now rewrite orb_true_r. }
    cbn [negb]. rewrite E, split_app by apply (token_is_plain _ Ta).
    assert (exists ps, split (b ++ rest) "/" = b :: ps) as [ps ->].
    { destruct R as [->|[r ->]].
      - rewrite append_empty_r.
        destruct (split_first_none _ _ (proj2 (token_is_plain _ Tb)))
          as [_ ->]. now eexists.
      - rewrite split_app by apply (token_is_plain _ Tb). now eexists. }
    cbn [nth_error falsy test_part].
    destruct (token_head _ Ta) as [? [? [-> _]]].
    destruct (token_head _ Tb) as [? [? [-> _]]].
    cbn [isEmpty orb]. unfold is_token in Ta, Tb. now rewrite Ta, Tb.
Qed.

(** X1. The validator accepts a value exactly when it is [[[date:], a
    content free of line terminators, and []]], where the content is one
    token, or starts with two tokens around a [/] and goes on with nothing
    or with a further [/] and anything. *)
Theorem validator_accepts_exactly (value : string) :
  validateTanaDateValue value = true
  <-> exists content,
        value = ("[[date:" ++ content ++ "]]")%string
        /\ all_chars (fun c => negb (isLineTerminator c)) content = true
        /\ (is_token content = true
            \/ exists a b rest,
                 content = (a ++ String "/" (b ++ rest))%string
                 /\ is_token a = true /\ is_token b = true
                 /\ (rest = EmptyString \/ exists r, rest = String "/" r)).
Proof.
  split.
  - intros V.
    destruct (validated_parts value V) as [content [_ [E [A [[_ T]|[I R]]]]]];
      exists content; (split; [exact E|]); (split; [exact A|]).
    + now left.
    + right. destruct R as [a [b [ps [Sp [Ta Tb]]]]].
      destruct (split_two _ _ _ _ I Sp) as [rest [Ec [_ R]]].
      exists a, b, rest. auto.
  - intros [content [-> [A H]]]. now apply validate_content_accepted.
Qed.

Lemma validated_is_not_empty (value : string) :
  validateTanaDateValue value = true -> (String.length value <? 1)%nat = false.
Proof.
  intros V. destruct (validated_parts value V) as [content [_ [-> _]]].
  reflexivity.
Qed.

Lemma schema_accepts (value : string) (info : TanaDateInfo) :
  TanaDateInfoSchema value = inr info
  <-> validateTanaDateValue value = true /\ info = extractTanaDateInfo value.
Proof.
  unfold TanaDateInfoSchema. split.
  - destruct (validateTanaDateValue value) eqn:V.
    + rewrite (validated_is_not_empty _ V). cbn. now intros [= <-].
    + destruct (String.length value <? 1)%nat; discriminate.
  - intros [V ->]. now rewrite V, (validated_is_not_empty _ V).
Qed.

Lemma schema_tokens (value : string) (info : TanaDateInfo) :
  TanaDateInfoSchema value = inr info ->
  info.(original) = value
  /\ is_token info.(start) = true
  /\ (forall e, info.(end_) = Some e -> is_token e = true).
Proof.
  intros H. apply schema_accepts in H as [V ->].
  destruct (extract_of_validated value V) as [s [e [-> [Ts [Te _]]]]].
  auto.
Qed.

Lemma build_of_tokens (info : TanaDateInfo) (timeZone : string) :
  is_token info.(start) = true ->
  (forall e, info.(end_) = Some e -> is_token e = true) ->
  exists ps pe,
    createEventDateTime timeZone info.(start) = Ok ps
    /\ createEventDateTime timeZone
         match info.(end_) with Some e => e | None => info.(start) end
       = Ok pe
    /\ buildEventDateTimeInfo info timeZone
       = Ok {| info_start := ps; info_end := pe |}.
Proof.
  destruct info as [o s e]; cbn [start end_]. intros Ts Te.
  destruct (TanaDateFacts.createEventDateTime_token timeZone s Ts)
    as [ps Eps].
  unfold buildEventDateTimeInfo; cbn [start end_]. rewrite Eps.
  cbn [bind_result]. destruct e as [e|].
  - specialize (Te e eq_refl).
    destruct (TanaDateFacts.createEventDateTime_token timeZone e Te)
      as [pe Epe].
    rewrite (TanaDateFacts.token_is_truthy _ Te), Epe. cbn [bind_result].
    now exists ps, pe.
  - cbn [bind_result]. now exists ps, ps.
Qed.

(** X2. Whatever date info the schema yields, the time builder
    accepts, in every time zone: its error is out of reach of validated
    input. *)
Theorem schema_output_always_builds (value timeZone : string)
  (info : TanaDateInfo) :
  TanaDateInfoSchema value = inr info ->
  exists r, buildEventDateTimeInfo info timeZone = Ok r.
Proof.
  intros H. destruct (schema_tokens _ _ H) as [_ [Ts Te]].
  destruct (build_of_tokens info timeZone Ts Te) as [ps [pe [_ [_ E]]]].
  eexists. exact E.
Qed.

Lemma schema_output_always_builds_witness :
  exists r,
    buildEventDateTimeInfo
      {| original := "[[date:2025-06-18T08:00/2025-06-19]]";
         start := "2025-06-18T08:00"; end_ := Some "2025-06-19" |}
      "Asia/Tokyo" = Ok r.
Proof.
  exact (schema_output_always_builds
           "[[date:2025-06-18T08:00/2025-06-19]]" "Asia/Tokyo" _ eq_refl).
Defined.

(** X3. Round trip from the notation: for an accepted value with at
    most one [/], writing the parts back between the brackets gives the
    value again. *)
Theorem accepted_notation_is_rendered_back (value : string)
  (info : TanaDateInfo) :
  TanaDateInfoSchema value = inr info ->
  count value "/" <= 1 ->
  render info = value.
Proof.
  intros H C. apply schema_accepts in H as [V ->].
  destruct (extract_of_validated value V)
    as [s [e [-> [Ts [Te [rest [E [N R]]]]]]]].
  unfold render; cbn [start end_].
  destruct R as [->|[r ->]].
  - rewrite E. reflexivity.
  - exfalso. destruct e as [x|]; [|now specialize (N eq_refl)].
    rewrite E in C. rewrite !count_app in C. simpl in C. lia.
Qed.

Lemma accepted_notation_is_rendered_back_witness :
  render {| original := "[[date:2025-06-18T08:00/2025-06-19T08:00]]";
            start := "2025-06-18T08:00"; end_ := Some "2025-06-19T08:00" |}
  = "[[date:2025-06-18T08:00/2025-06-19T08:00]]".
Proof.
  apply (accepted_notation_is_rendered_back
           "[[date:2025-06-18T08:00/2025-06-19T08:00]]" _ eq_refl).
  cbv. lia.
Defined.

(** X4. Round trip from the parts: the notation of a token, or of two
    tokens, is accepted by the schema and decomposed into those very
    parts. *)
Theorem rendered_notation_is_accepted (o s : string) (e : option string) :
  is_token s = true ->
  (forall x, e = Some x -> is_token x = true) ->
  let info := {| original := o; start := s; end_ := e |} in
  TanaDateInfoSchema (render info)
  = inr {| original := render info; start := s; end_ := e |}.
Proof.
  intros Ts Te info. apply schema_accepts. unfold info, render.
  cbn [start end_]. destruct e as [x|].
  - specialize (Te x eq_refl).
    assert (all_chars (fun c => negb (isLineTerminator c))
              (s ++ String "/" (x ++ EmptyString)) = true) as A.
    { rewrite all_chars_app. cbn [all_chars]. rewrite all_chars_app.
      now rewrite (proj1 (token_is_plain _ Ts)),
        (proj1 (token_is_plain _ Te)). }
    destruct (validate_content_accepted
                (s ++ String "/" (x ++ EmptyString)) A) as [V M].
    { right. exists s, x, EmptyString. auto. }
    rewrite append_empty_r in V, M.
    assert (("[[date:" ++ s ++ ("/" ++ x) ++ "]]")
            = ("[[date:" ++ (s ++ String "/" x) ++ "]]"))%string as ->
        by (cbn [append]; now rewrite append_assoc).
    split; [exact V|].
    unfold extractTanaDateInfo. rewrite M.
    rewrite includes_app. cbn [includes]. rewrite Ascii.eqb_refl.
    rewrite orb_true_r. cbn [orb negb].
    rewrite split_app by apply (token_is_plain _ Ts).
    destruct (split_first_none _ _ (proj2 (token_is_plain _ Te))) as [_ ->].
    reflexivity.
  - destruct (validate_content_accepted s (proj1 (token_is_plain _ Ts))
                (or_introl Ts)) as [V M].
    assert (("[[date:" ++ s ++ EmptyString ++ "]]")
            = ("[[date:" ++ s ++ "]]"))%string as -> by reflexivity.
    split; [exact V|].
    unfold extractTanaDateInfo.
    now rewrite M, (proj2 (token_is_plain _ Ts)).
Qed.

Lemma rendered_notation_is_accepted_witness :
  TanaDateInfoSchema "[[date:2025-06-18/2025-06-19T23:59]]"
  = inr {| original := "[[date:2025-06-18/2025-06-19T23:59]]";
           start := "2025-06-18"; end_ := Some "2025-06-19T23:59" |}.
Proof.
  apply (rendered_notation_is_accepted "any" "2025-06-18"
           (Some "2025-06-19T23:59") eq_refl).
  now intros x [= <-].
Defined.

(** X5. When the schema rejects a value, the validator said no, the
    issues hold the message that quotes the value and lists the formats,
    and the [too_small] issue is there exactly for the empty string. *)
Theorem schema_rejects_with_guidance (value : string)
  (issues : list ZodIssue) :
  TanaDateInfoSchema value = inl issues ->
  validateTanaDateValue value = false
  /\ In (custom (invalid_format_message value)) issues
  /\ (In (too_small "Date value cannot be empty") issues
      <-> value = EmptyString).
Proof.
  unfold TanaDateInfoSchema.
  destruct (validateTanaDateValue value) eqn:V.
  - rewrite (validated_is_not_empty _ V). discriminate.
  - destruct value as [|c v]; cbn; intros [= <-];
      (split; [reflexivity|]); split.
    + right. now left.
    + split; [reflexivity | now left].
    + now left.
    + split; [|discriminate]. intros [H|[]]. discriminate.
Qed.

Lemma schema_rejects_with_guidance_witness :
  validateTanaDateValue "[[date:18/06/2025]]" = false
  /\ In (custom (invalid_format_message "[[date:18/06/2025]]"))
       [custom (invalid_format_message "[[date:18/06/2025]]")].
Proof.
  destruct (schema_rejects_with_guidance "[[date:18/06/2025]]"
              [custom (invalid_format_message "[[date:18/06/2025]]")]
              eq_refl) as [V [I _]].
  split; assumption.
Defined.

Lemma split_no_separator (s : string) (c : ascii) (p : string) :
  In p (split s c) -> includes p c = false.
Proof.
  revert p; induction s as [|x s IH]; intros p; simpl.
  - intros [<-|[]]. reflexivity.
  - destruct (Ascii.eqb x c) eqn:X.
    + intros [<-|H]; [reflexivity | now apply IH].
    + destruct (split s c) as [|q qs]; simpl.
      * intros [<-|[]]. simpl. now rewrite X.
      * intros [<-|H].
        -- simpl. rewrite X. apply IH. now left.
        -- apply IH. now right.
Qed.

(** X6. On every string, validated or not, the decomposition keeps the
    input as [original] and yields a start and an end without any [/]. *)
Theorem decomposed_parts_have_no_slash (date : string) :
  (extractTanaDateInfo date).(original) = date
  /\ includes (extractTanaDateInfo date).(start) "/" = false
  /\ (forall e, (extractTanaDateInfo date).(end_) = Some e ->
      includes e "/" = false).
Proof.
  unfold extractTanaDateInfo.
  set (content := match match_date_literal date with
                  | Some group => group
                  | None => date
                  end).
  destruct (includes content "/") eqn:I; cbn [negb].
  - pose proof (split_no_separator content "/") as N.
    destruct (split_pieces content "/") as [a [ps E]]. rewrite E in *.
    destruct ps as [|b ps]; cbn [original start end_].
    + repeat split; try discriminate. apply N. now left.
    + repeat split.
      * apply N. now left.
      * intros e [= <-]. apply N. right. now left.
  - cbn [original start end_]. repeat split; [exact I | discriminate].
Qed.

Lemma test_app (p q : list atom) (s t : string) :
  test p s = true -> test q t = true -> test (p ++ q) (s ++ t) = true.
Proof.
  revert s; induction p as [|a p IH]; intros [|c s] Hs Ht; simpl in *;
    try discriminate; [exact Ht|].
  apply andb_true_iff in Hs as [-> Hs]. now apply IH.
Qed.

Lemma created_point_shape (timeZone s : string) (p : EventDateTime) :
  createEventDateTime timeZone s = Ok p ->
  Shapes.well_shaped timeZone p = true /\ is_token s = true.
Proof.
  unfold createEventDateTime, is_token.
  destruct (test TANA_DATE_TIME_REGEX s) eqn:DT.
  - intros [= <-]. cbn [Shapes.well_shaped]. rewrite String.eqb_refl.
    unfold Shapes.DATE_TIME_SECONDS.
    rewrite (test_app _ [Lit ":"; Lit "0"; Lit "0"] s ":00" DT eq_refl).
    now rewrite orb_true_r.
  - destruct (test TANA_DATE_REGEX s) eqn:D; [|discriminate].
    intros [= <-]. cbn [Shapes.well_shaped].
    now rewrite D, String.eqb_refl.
Qed.

(** X7. Every time point the builder hands out holds a date-only
    token, or a date-time token followed by [:00], and the time zone it
    was given. *)
Theorem built_points_are_well_shaped (info : TanaDateInfo)
  (timeZone : string) (r : EventDateTimeInfo) :
  buildEventDateTimeInfo info timeZone = Ok r ->
  Shapes.well_shaped timeZone r.(info_start) = true
  /\ Shapes.well_shaped timeZone r.(info_end) = true.
Proof.
  unfold buildEventDateTimeInfo.
  destruct (createEventDateTime timeZone info.(start)) as [ps|] eqn:Es;
    [|discriminate].
  cbn [bind_result]. destruct (created_point_shape _ _ _ Es) as [Ws _].
  destruct info.(end_) as [e|].
  - destruct (truthy e).
    + destruct (createEventDateTime timeZone e) as [pe|] eqn:Ee;
        [|discriminate].
      cbn [bind_result]. intros [= <-].
      destruct (created_point_shape _ _ _ Ee) as [We _]. now split.
    + cbn [bind_result]. intros [= <-]. now split.
  - cbn [bind_result]. intros [= <-]. now split.
Qed.

Lemma built_points_are_well_shaped_witness :
  Shapes.well_shaped "Etc/UTC" (Timed "2025-06-18T08:00:00" "Etc/UTC") = true
  /\ Shapes.well_shaped "Etc/UTC" (AllDay "2025-06-19" "Etc/UTC") = true.
Proof.
  exact (built_points_are_well_shaped
           {| original := "[[date:2025-06-18T08:00/2025-06-19]]";
              start := "2025-06-18T08:00"; end_ := Some "2025-06-19" |}
           "Etc/UTC" _ eq_refl).
Defined.

End NotationFacts.

(** ** The output text and the title *)

Module PasteFacts.
Import Js TanaDate Schemas Service Spec Unparse Selection StringFacts.
Import ServiceFacts.

Lemma append_same (s t : string) : (s ++ t)%string = s -> t = EmptyString.
Proof.
  induction s as [|c s IH]; simpl; [easy|]. intros [= H]. now apply IH.
Qed.

(** X8. Over a record, the text is the newline-joined lines of the
    written fields exactly when no field is written or the last selected
    field is written. *)
Theorem paste_is_joined_lines_exactly_when (event : gc.CalendarEvent)
  (calendarId : string) (fields : EventFieldsToReturn) :
  buildTanaPaste (Some event) calendarId fields
  = Ok (serialize event calendarId fields)
  <-> emitted event calendarId fields = []
      \/ last_omitted event calendarId fields = false.
Proof.
  rewrite buildTanaPaste_text. unfold trailer. split.
  - intros [= H]. apply append_same in H.
    destruct (emitted event calendarId fields); [now left|].
    destruct (last_omitted event calendarId fields);
      [discriminate | now right].
  - intros [->| ->]; [|destruct (emitted event calendarId fields)];
      now rewrite append_empty_r.
Qed.

Lemma reduce_without_record (calendarId : string) (n : nat)
  (event : option gc.CalendarEvent) (l : EventFieldsToReturn) :
  forall (i : nat) (acc : string),
    forallb reads_calendar_only l = true ->
    reduce
      (fun acc f index =>
         bind_result
           (if String.eqb f.(property) "calendarId"
            then Ok (gc.JsString calendarId)
            else gc.read event (fun e => gc.get e f.(property)))
           (fun value =>
              if gc.truthy value
              then Ok (acc ++ f.(field) ++ "::" ++ gc.toString value
                       ++ (if (1 <? n)%nat && negb (index =? n - 1)%nat
                           then Js.nl else EmptyString))%string
              else Ok acc))
      l i acc
    = reduce
        (fun acc f index =>
           bind_result
             (if String.eqb f.(property) "calendarId"
              then Ok (gc.JsString calendarId)
              else gc.read None (fun e => gc.get e f.(property)))
             (fun value =>
                if gc.truthy value
                then Ok (acc ++ f.(field) ++ "::" ++ gc.toString value
                         ++ (if (1 <? n)%nat && negb (index =? n - 1)%nat
                             then Js.nl else EmptyString))%string
                else Ok acc))
        l i acc.
Proof.
  induction l as [|f l IH]; intros i acc A; [reflexivity|].
  cbn [forallb] in A. apply andb_true_iff in A as [F A].
  unfold reads_calendar_only in F. cbn [reduce]. rewrite F.
  cbn [bind_result]. destruct (gc.truthy (gc.JsString calendarId));
    cbn [bind_result]; now apply IH.
Qed.

Lemma reduce_missing_record (calendarId : string) (n : nat)
  (l : EventFieldsToReturn) :
  forall (i : nat) (acc : string),
    forallb reads_calendar_only l = false ->
    reduce
      (fun acc f index =>
         bind_result
           (if String.eqb f.(property) "calendarId"
            then Ok (gc.JsString calendarId)
            else gc.read None (fun e => gc.get e f.(property)))
           (fun value =>
              if gc.truthy value
              then Ok (acc ++ f.(field) ++ "::" ++ gc.toString value
                       ++ (if (1 <? n)%nat && negb (index =? n - 1)%nat
                           then Js.nl else EmptyString))%string
              else Ok acc))
      l i acc
    = Thrown TypeError.
Proof.
  induction l as [|f l IH]; intros i acc A; [discriminate|].
  cbn [forallb] in A. unfold reads_calendar_only in A at 1. cbn [reduce].
  destruct (String.eqb f.(property) "calendarId"); [|reflexivity].
  cbn [andb bind_result] in A |- *.
  destruct (gc.truthy (gc.JsString calendarId)); cbn [bind_result];
    now apply IH.
Qed.

(** X9. A selection of [calendarId] fields only never reads the record:
    the text is the same with and without one.  Any other selection, on a
    missing record, throws a [TypeError]. *)
Theorem paste_reads_the_record_for_other_properties_only
  (event : option gc.CalendarEvent) (calendarId : string)
  (fields : EventFieldsToReturn) :
  (forallb reads_calendar_only fields = true ->
   buildTanaPaste event calendarId fields
   = buildTanaPaste None calendarId fields)
  /\ (forallb reads_calendar_only fields = false ->
      buildTanaPaste None calendarId fields = Thrown TypeError).
Proof.
  unfold buildTanaPaste. split; intros A.
  - now apply reduce_without_record.
  - now apply reduce_missing_record.
Qed.

Lemma paste_reads_the_record_for_other_properties_only_witness :
  buildTanaPaste (Some Sample.fetched) "primary"
    [{| field := "Synced Calendar ID"; property := "calendarId" |}]
  = buildTanaPaste None "primary"
      [{| field := "Synced Calendar ID"; property := "calendarId" |}]
  /\ buildTanaPaste None "primary" DEFAULT_FIELDS_TO_RETURN
     = Thrown TypeError.
Proof.
  split.
  - exact (proj1 (paste_reads_the_record_for_other_properties_only
                    (Some Sample.fetched) "primary"
                    [{| field := "Synced Calendar ID";
                        property := "calendarId" |}]) eq_refl).
  - exact (proj2 (paste_reads_the_record_for_other_properties_only
                    None "primary" DEFAULT_FIELDS_TO_RETURN) eq_refl).
Defined.

Lemma default_selection_is_serialized_witness :
  buildTanaPaste (Some Sample.fetched) "primary" DEFAULT_FIELDS_TO_RETURN
  = Ok (serialize Sample.fetched "primary" DEFAULT_FIELDS_TO_RETURN).
Proof.
  apply (default_selection_is_serialized Sample.fetched "primary").
  discriminate.
Defined.

(** *** Trimming *)

Lemma trimStart_starts_clean (s : string) :
  starts_clean (trimStart s) = true.
Proof.
  induction s as [|c s IH]; [reflexivity|]. cbn [trimStart].
  destruct (isWhiteSpace c) eqn:W; [exact IH|]. cbn. now rewrite W.
Qed.

Lemma trimEnd_starts_clean (s : string) :
  starts_clean s = true -> starts_clean (trimEnd s) = true.
Proof.
  destruct s as [|c s]; [reflexivity|]. cbn [starts_clean trimEnd].
  intros W. destruct (trimEnd s); [|exact W].
  apply negb_true_iff in W. rewrite W. cbn. now rewrite W.
Qed.

Lemma trimEnd_ends_clean (s : string) : ends_clean (trimEnd s) = true.
Proof.
  induction s as [|c s IH]; [reflexivity|]. cbn [trimEnd].
  destruct (trimEnd s) as [|d t].
  - destruct (isWhiteSpace c) eqn:W; [reflexivity|]. cbn. now rewrite W.
  - exact IH.
Qed.

Lemma trim_is_clean (s : string) : clean (trim s) = true.
Proof.
  unfold clean, trim.
  now rewrite trimEnd_starts_clean, trimEnd_ends_clean
    by apply trimStart_starts_clean.
Qed.

Lemma trimStart_of_clean (s : string) :
  starts_clean s = true -> trimStart s = s.
Proof.
  destruct s as [|c s]; [reflexivity|]. cbn. intros W.
  apply negb_true_iff in W. now rewrite W.
Qed.

Lemma trimEnd_of_clean (s : string) : ends_clean s = true -> trimEnd s = s.
Proof.
  induction s as [|c s IH]; [reflexivity|]. intros E. cbn [trimEnd].
  destruct s as [|d s].
  - cbn in E |- *. apply negb_true_iff in E. now rewrite E.
  - rewrite IH by exact E. reflexivity.
Qed.

Lemma trim_of_clean (s : string) : clean s = true -> trim s = s.
Proof.
  unfold clean, trim. intros H. apply andb_true_iff in H as [A B].
  now rewrite trimStart_of_clean, trimEnd_of_clean.
Qed.

(** Trimming removes white space only, and only at the two ends. *)
Lemma trim_decomposes (s : string) :
  exists before after,
    s = (before ++ trim s ++ after)%string
    /\ TanaDate.all_chars isWhiteSpace before = true
    /\ TanaDate.all_chars isWhiteSpace after = true.
Proof.
  assert (forall t, exists after,
             t = (trimEnd t ++ after)%string
             /\ TanaDate.all_chars isWhiteSpace after = true) as E.
  { induction t as [|c t [after [Ht Wa]]].
    - now exists EmptyString.
    - cbn [trimEnd]. destruct (trimEnd t) as [|d u] eqn:T.
      + destruct (isWhiteSpace c) eqn:W.
        * exists (String c after). cbn. rewrite W, Wa. split; [|easy].
          now rewrite Ht at 1.
        * exists after. split; [|exact Wa]. cbn. now rewrite Ht at 1.
      + exists after. split; [|exact Wa]. cbn. now rewrite Ht at 1. }
  unfold trim. induction s as [|c s [before [after [Hs [Wb Wa]]]]].
  - now exists EmptyString, EmptyString.
  - cbn [trimStart]. destruct (isWhiteSpace c) eqn:W.
    + exists (String c before), after. cbn. rewrite W, Wb.
      repeat split; [|exact Wa]. now rewrite Hs at 1.
    + destruct (E (String c s)) as [after' [H' W']].
      exists EmptyString, after'. now repeat split.
Qed.

(** X10. The title has no white space at either end; it is the
    concatenation of prefix, name and suffix once the white space around
    it is removed, and the concatenation itself when that has none. *)
Theorem summary_is_the_trimmed_concatenation (name : string)
  (options : EventOptions) :
  let whole :=
    (or_default options.(prefix) EmptyString ++ name
     ++ or_default options.(suffix) EmptyString)%string in
  clean (buildSummary name options) = true
  /\ (clean whole = true -> buildSummary name options = whole)
  /\ exists before after,
       whole = (before ++ buildSummary name options ++ after)%string
       /\ TanaDate.all_chars isWhiteSpace before = true
       /\ TanaDate.all_chars isWhiteSpace after = true.
Proof.
  intros whole. unfold buildSummary. fold whole. split; [|split].
  - apply trim_is_clean.
  - apply trim_of_clean.
  - apply trim_decomposes.
Qed.

Lemma summary_is_the_trimmed_concatenation_witness :
  buildSummary "Stand-up" {| prefix := Some "[team] "; suffix := None;
                             fieldsToReturn := [] |}
  = "[team] Stand-up".
Proof.
  exact (proj1 (proj2 (summary_is_the_trimmed_concatenation "Stand-up"
           {| prefix := Some "[team] "; suffix := None;
              fieldsToReturn := [] |})) eq_refl).
Defined.

End PasteFacts.

(** ** Creating, deleting and the rest of updating *)

Module FlowFacts.
Import Js TanaDate Schemas Service Trace Spec Calls StringFacts ServiceFacts.

(** X11. The options of an update, prefix and suffix included, change
    neither the calls made nor the state the backend is left in: they reach
    the returned text only. *)
Theorem update_options_do_not_reach_the_calendar {S} (B : Backend S) (s : S)
  (accessToken fromCalendarId eventId : string) (data : PartialEventData.t)
  (options options' : EventOptions) (toCalendarId : option string) :
  calls (run B (updateEvent accessToken fromCalendarId eventId data options
                  toCalendarId) s)
  = calls (run B (updateEvent accessToken fromCalendarId eventId data options'
                    toCalendarId) s)
  /\ final (run B (updateEvent accessToken fromCalendarId eventId data options
                     toCalendarId) s)
     = final (run B (updateEvent accessToken fromCalendarId eventId data
                       options' toCalendarId) s).
Proof.
  unfold updateEvent, await.
  destruct toCalendarId as [to|]; repeat flow_step; flow_done;
    split; reflexivity.
Qed.

(** What a merge over a record leaves alone, and what it sets. *)
Lemma merge_fields (event merged : gc.CalendarEvent)
  (data : PartialEventData.t) :
  mergeEventData (Some event) data = Ok merged ->
  merged.(gc.id) = event.(gc.id)
  /\ merged.(gc.htmlLink) = event.(gc.htmlLink)
  /\ merged.(gc.others) = event.(gc.others)
  /\ merged.(gc.summary)
     = match data.(PartialEventData.name) with
       | Some n => gc.Val n
       | None => event.(gc.summary)
       end
  /\ merged.(gc.description)
     = match data.(PartialEventData.description) with
       | Some d => gc.Val d
       | None => event.(gc.description)
       end
  /\ merged.(gc.location)
     = match data.(PartialEventData.location) with
       | Some l => gc.Val l
       | None => event.(gc.location)
       end
  /\ (data.(PartialEventData.date) = None ->
      merged.(gc.start) = event.(gc.start)
      /\ merged.(gc.end_) = event.(gc.end_)).
Proof.
  destruct data as [n d de tz l]. unfold mergeEventData, copy_if_changed.
  cbn [PartialEventData.name PartialEventData.date
       PartialEventData.description PartialEventData.timeZone
       PartialEventData.location gc.read].
  destruct n as [n|], de as [de|], l as [l|]; cbn [bind_result];
    repeat match goal with
      | |- context [gc.strict_neq ?a ?b] =>
          let E := fresh "E" in
          destruct (gc.strict_neq a b) eqn:E;
          [|apply strict_neq_false in E]
      end; cbn [bind_result];
    (destruct d as [d|];
     [ destruct (buildEventDateTimeInfo d _) as [info|];
       [|discriminate]; cbn [bind_result];
       destruct (differs (info_start info) (gc.start event)),
         (differs (info_end info) (gc.end_ event))
     | ]);
    intros [= <-]; cbn; repeat split; try congruence; try discriminate.
Qed.

(** X12. A record handed to [gc.updateEvent] has the [id], [htmlLink] and
    further properties of the record in hand; its title, description and
    location are the incoming ones where given and the record's otherwise;
    and without an incoming date its start and end are the record's,
    whatever time zone comes in. *)
Theorem update_sets_the_incoming_fields_only {S} (B : Backend S) (s : S)
  (accessToken fromCalendarId eventId : string) (data : PartialEventData.t)
  (options : EventOptions) (toCalendarId : option string)
  (sub : Submission) (event : gc.CalendarEvent) :
  In sub (submissions (calls (run B
     (updateEvent accessToken fromCalendarId eventId data options
        toCalendarId) s))) ->
  sub.(held) = Some event ->
  sub.(submitted).(gc.id) = event.(gc.id)
  /\ sub.(submitted).(gc.htmlLink) = event.(gc.htmlLink)
  /\ sub.(submitted).(gc.others) = event.(gc.others)
  /\ sub.(submitted).(gc.summary)
     = match data.(PartialEventData.name) with
       | Some n => gc.Val n
       | None => event.(gc.summary)
       end
  /\ sub.(submitted).(gc.description)
     = match data.(PartialEventData.description) with
       | Some d => gc.Val d
       | None => event.(gc.description)
       end
  /\ sub.(submitted).(gc.location)
     = match data.(PartialEventData.location) with
       | Some l => gc.Val l
       | None => event.(gc.location)
       end
  /\ (data.(PartialEventData.date) = None ->
      sub.(submitted).(gc.start) = event.(gc.start)
      /\ sub.(submitted).(gc.end_) = event.(gc.end_)).
Proof.
  intros H E. apply update_submissions in H as [M _]. rewrite E in M.
  now apply merge_fields.
Qed.

Lemma update_sets_the_incoming_fields_only_witness :
  gc.description (gc.with_description (gc.Val "weekly") Sample.fetched)
  = gc.Val "weekly"
  /\ gc.start (gc.with_description (gc.Val "weekly") Sample.fetched)
     = gc.start Sample.fetched.
Proof.
  destruct (update_sets_the_incoming_fields_only
              (Sample.echo (Some Sample.fetched)) tt
              "token" "primary" "abc"
              {| PartialEventData.name := None;
                 PartialEventData.date := None;
                 PartialEventData.description := Some "weekly";
                 PartialEventData.timeZone := Some "Asia/Tokyo";
                 PartialEventData.location := None |}
              DEFAULT_OPTIONS None
              {| held := Some Sample.fetched; target := "primary";
                 submitted :=
                   gc.with_description (gc.Val "weekly") Sample.fetched |}
              Sample.fetched (or_introl eq_refl) eq_refl)
    as [_ [_ [_ [_ [D [_ T]]]]]].
  split; [exact D | exact (proj1 (T eq_refl))].
Defined.

(** A guarded copy of the value the record has already copies nothing. *)
Lemma copy_of_current_value (incoming : option string)
  (event : gc.CalendarEvent)
  (current : gc.CalendarEvent -> gc.nullable string)
  (assign : gc.nullable string -> gc.CalendarEvent -> gc.CalendarEvent)
  (u : gc.CalendarEvent) :
  (forall v, incoming = Some v -> current event = gc.Val v) ->
  copy_if_changed incoming (Some event) current assign u = Ok u.
Proof.
  intros H. unfold copy_if_changed, gc.read.
  destruct incoming as [v|]; [|reflexivity].
  cbn [bind_result]. rewrite (H v eq_refl).
  unfold gc.strict_neq. cbn [gc.strict_eq]. now rewrite String.eqb_refl.
Qed.

Lemma merge_of_current_values (event : gc.CalendarEvent)
  (data : PartialEventData.t) :
  (forall n, data.(PartialEventData.name) = Some n ->
             event.(gc.summary) = gc.Val n) ->
  (forall d, data.(PartialEventData.description) = Some d ->
             event.(gc.description) = gc.Val d) ->
  (forall l, data.(PartialEventData.location) = Some l ->
             event.(gc.location) = gc.Val l) ->
  (forall date, data.(PartialEventData.date) = Some date ->
     exists info,
       buildEventDateTimeInfo date
         (or_else data.(PartialEventData.timeZone) "Etc/UTC") = Ok info
       /\ differs info.(info_start) event.(gc.start) = false
       /\ differs info.(info_end) event.(gc.end_) = false) ->
  mergeEventData (Some event) data = Ok event.
Proof.
  intros Hn Hd Hl Hdate. unfold mergeEventData.
  rewrite (copy_of_current_value _ _ _ _ _ Hn). cbn [bind_result].
  rewrite (copy_of_current_value _ _ _ _ _ Hd). cbn [bind_result].
  rewrite (copy_of_current_value _ _ _ _ _ Hl). cbn [bind_result].
  destruct (PartialEventData.date data) as [date|]; [|reflexivity].
  destruct (Hdate date eq_refl) as [info [-> [Ds De]]].
  cbn [bind_result gc.read]. now rewrite Ds, De.
Qed.

(** X13. When no move is asked for and every incoming field has the
    value the fetched record already has (for a date: the rebuilt start and
    end have the [date] and [dateTime] of the record's, whatever the time
    zone), the update is issued all the same, with the fetched record as it
    is. *)
Theorem unchanged_fields_are_still_written {S} (B : Backend S) (s s1 : S)
  (accessToken fromCalendarId eventId : string) (data : PartialEventData.t)
  (options : EventOptions) (toCalendarId : option string)
  (event : gc.CalendarEvent) :
  moves toCalendarId fromCalendarId = false ->
  respond B (gc.getEvent accessToken fromCalendarId eventId) s
  = (Ok (Some event), s1) ->
  PartialEventData.keys data <> [] ->
  (forall n, data.(PartialEventData.name) = Some n ->
             event.(gc.summary) = gc.Val n) ->
  (forall d, data.(PartialEventData.description) = Some d ->
             event.(gc.description) = gc.Val d) ->
  (forall l, data.(PartialEventData.location) = Some l ->
             event.(gc.location) = gc.Val l) ->
  (forall date, data.(PartialEventData.date) = Some date ->
     exists info,
       buildEventDateTimeInfo date
         (or_else data.(PartialEventData.timeZone) "Etc/UTC") = Ok info
       /\ (point info.(info_start)).(gc.dateTime)
          = dateTime_of event.(gc.start)
       /\ (point info.(info_start)).(gc.date) = date_of event.(gc.start)
       /\ (point info.(info_end)).(gc.dateTime)
          = dateTime_of event.(gc.end_)
       /\ (point info.(info_end)).(gc.date) = date_of event.(gc.end_)) ->
  submissions (calls (run B
     (updateEvent accessToken fromCalendarId eventId data options
        toCalendarId) s))
  = [{| held := Some event; target := fromCalendarId;
        submitted := event |}].
Proof.
  intros M G K Hn Hd Hl Hdate.
  apply (update_submits_the_merge B s s1); try assumption.
  apply merge_of_current_values; try assumption.
  intros date D. destruct (Hdate date D) as [info [Bd [S1 [S2 [E1 E2]]]]].
  exists info. split; [exact Bd|].
  split; apply differs_false; now split.
Qed.

(** The fetched record is sent back whole when the update repeats its
    title, its description, its location and its two days, in another time
    zone than the record's. *)
Lemma unchanged_fields_are_still_written_witness :
  submissions (calls (run (Sample.echo (Some Sample.fetched_in_tokyo))
     (updateEvent "token" "primary" "abc"
        {| PartialEventData.name := Some "Stand-up";
           PartialEventData.date := Some Sample.same_days;
           PartialEventData.description := Some "daily";
           PartialEventData.timeZone := Some "Europe/Paris";
           PartialEventData.location := Some "Room 1" |}
        DEFAULT_OPTIONS None) tt))
  = [{| held := Some Sample.fetched_in_tokyo; target := "primary";
        submitted := Sample.fetched_in_tokyo |}].
Proof.
  apply (unchanged_fields_are_still_written
           (Sample.echo (Some Sample.fetched_in_tokyo)) tt tt);
    try reflexivity; try discriminate.
  - now intros n [= <-].
  - now intros d [= <-].
  - now intros l [= <-].
  - intros date [= <-]. eexists. split; [reflexivity|].
    repeat split; reflexivity.
Defined.



(** X15. The first call of an update is the fetch on the source
    calendar.  Without a destination that differs there is no move and
    every call addresses the source; with one, the second call is the move
    and every call after it addresses the destination. *)
Theorem calls_address_the_calendar_that_holds_the_event {S} (B : Backend S)
  (s : S) (accessToken fromCalendarId eventId : string)
  (data : PartialEventData.t) (options : EventOptions)
  (toCalendarId : option string) :
  let log := calls (run B (updateEvent accessToken fromCalendarId eventId
                             data options toCalendarId) s) in
  (exists answer,
      hd_error log
      = Some (Called (gc.getEvent accessToken fromCalendarId eventId) answer))
  /\ (moves toCalendarId fromCalendarId = false ->
      forallb (fun e => negb (is_move e)) log = true
      /\ forall e, In e log -> calendar_of e = fromCalendarId)
  /\ (moves toCalendarId fromCalendarId = true ->
      (forall e, nth_error log 1 = Some e -> is_move e = true)
      /\ forall e, In e (skipn 2 log) ->
           is_move e = false
           /\ calendar_of e = destination toCalendarId fromCalendarId).
Proof.
  unfold updateEvent, await, moves, destination, moves.
  destruct toCalendarId as [to|]; repeat flow_step; flow_done;
    cbn [hd_error nth_error skipn forallb is_move negb andb In];
    (split; [now eexists|]); split; intros M; try discriminate;
    split; try reflexivity;
    try (intros entry [= <-]; reflexivity);
    intros entry I; cbn [In] in I;
    repeat (destruct I as [<-|I]; [cbn; auto|]); try contradiction.
Qed.

(** X16. When the backend refuses the update after a successful move,
    the refusal is the outcome, unchanged, and the run ends there: fetch,
    move, update, with nothing to take the move back. *)
Theorem rejected_update_leaves_the_event_moved {S} (B : Backend S)
  (s s1 s2 s3 : S) (accessToken fromCalendarId eventId to : string)
  (data : PartialEventData.t) (options : EventOptions)
  (event moved merged : gc.CalendarEvent) (e : JsError) :
  moves (Some to) fromCalendarId = true ->
  PartialEventData.keys data <> [] ->
  respond B (gc.getEvent accessToken fromCalendarId eventId) s
  = (Ok (Some event), s1) ->
  respond B (gc.moveEventToAnotherCalendar accessToken fromCalendarId
               eventId to) s1
  = (Ok (Some moved), s2) ->
  mergeEventData (Some moved) data = Ok merged ->
  respond B (gc.updateEvent accessToken to eventId merged) s2
  = (Thrown e, s3) ->
  run B (updateEvent accessToken fromCalendarId eventId data options
           (Some to)) s
  = {| outcome := Thrown e;
       final := s3;
       calls :=
         [Called (gc.getEvent accessToken fromCalendarId eventId)
            (Ok (Some event));
          Called (gc.moveEventToAnotherCalendar accessToken fromCalendarId
                    eventId to) (Ok (Some moved));
          Called (gc.updateEvent accessToken to eventId merged)
            (Thrown e)] |}.
Proof.
  intros M K G Mv Mg U. unfold updateEvent, await.
  assert ((0 <? List.length (PartialEventData.keys data))%nat = true) as ->.
  { destruct (PartialEventData.keys data); [contradiction | reflexivity]. }
  unfold moves in M. cbn [bind_async run]. rewrite G, M.
  cbn [bind_async run]. rewrite Mv. cbn [bind_async lift run]. rewrite Mg.
  cbn [bind_async lift run]. rewrite U. reflexivity.
Qed.


Lemma rejected_update_leaves_the_event_moved_witness :
  run (Backends.read_only (Some Sample.fetched))
    (updateEvent "token" "primary" "abc" (PartialEventData.only_name "Retro")
       DEFAULT_OPTIONS (Some "team")) tt
  = {| outcome := Thrown (Rejected "forbidden");
       final := tt;
       calls :=
         [Called (gc.getEvent "token" "primary" "abc")
            (Ok (Some Sample.fetched));
          Called (gc.moveEventToAnotherCalendar "token" "primary" "abc"
                    "team") (Ok (Some Sample.fetched));
          Called (gc.updateEvent "token" "team" "abc"
                    (gc.with_summary (gc.Val "Retro") Sample.fetched))
            (Thrown (Rejected "forbidden"))] |}.
Proof.
  apply (rejected_update_leaves_the_event_moved
           (Backends.read_only (Some Sample.fetched)) tt tt tt tt
           "token" "primary" "abc" "team"
           (PartialEventData.only_name "Retro") DEFAULT_OPTIONS
           Sample.fetched Sample.fetched
           (gc.with_summary (gc.Val "Retro") Sample.fetched)
           (Rejected "forbidden")); try reflexivity.
  discriminate.
Defined.


(** *** Creating *)

(** X18. A creation makes at most one call, an insert into the target
    calendar; when the time builder throws, it makes none and the builder's
    error is the outcome; and a refused insert is the outcome as it is. *)
Theorem create_inserts_once_or_not_at_all {S} (B : Backend S) (s : S)
  (accessToken calendarId : string) (data : EventData.t)
  (options : EventOptions) :
  let r := run B (createEvent accessToken calendarId data options) s in
  (List.length r.(calls) <= 1)%nat
  /\ (forall entry, In entry r.(calls) ->
      is_insert entry = true /\ calendar_of entry = calendarId)
  /\ (forall e,
        buildEventDateTimeInfo data.(EventData.date)
          data.(EventData.timeZone) = Thrown e ->
        r = {| outcome := Thrown e; final := s; calls := [] |})
  /\ (forall call e, r.(calls) = [Called call (Thrown e)] ->
      r.(outcome) = Thrown e).
Proof.
  unfold createEvent, await.
  destruct (buildEventDateTimeInfo _ _) as [info|e];
    cbn [lift bind_async run].
  - destruct (respond B _ s) as [[event|e] s1].
    + destruct (buildTanaPaste event calendarId (fieldsToReturn options));
        cbn [lift run calls final outcome List.length In];
        (split; [lia|]); (split; [now intros entry [<-|[]]|]);
        split; discriminate.
    + cbn [calls final outcome List.length In].
      split; [lia|]. split; [now intros entry [<-|[]]|].
      split; [discriminate|]. now intros call e' [= _ <-].
  - cbn [calls List.length In]. split; [lia|]. split; [now intros entry []|].
    split; [now intros e' [= <-] | discriminate].
Qed.

Lemma create_inserts_once_or_not_at_all_witness :
  run Backends.keeping
    (createEvent "token" "primary"
       {| EventData.name := "Stand-up";
          EventData.date :=
            {| original := "tomorrow"; start := "tomorrow"; end_ := None |};
          EventData.description := EmptyString;
          EventData.timeZone := "Etc/UTC";
          EventData.location := EmptyString |} DEFAULT_OPTIONS) 0
  = {| outcome := Thrown (Error "Invalid date/time format: tomorrow");
       final := 0; calls := [] |}.
Proof.
  exact (proj1 (proj2 (proj2 (create_inserts_once_or_not_at_all
           Backends.keeping 0 "token" "primary"
           {| EventData.name := "Stand-up";
              EventData.date :=
                {| original := "tomorrow"; start := "tomorrow";
                   end_ := None |};
              EventData.description := EmptyString;
              EventData.timeZone := "Etc/UTC";
              EventData.location := EmptyString |} DEFAULT_OPTIONS)))
           (Error "Invalid date/time format: tomorrow") eq_refl).
Defined.

(** X19. With a date the schema let through, a creation always makes
    its insert: the record sent has the trimmed title and well shaped start
    and end in the time zone of the data. *)
Theorem validated_creation_reaches_the_calendar {S} (B : Backend S) (s : S)
  (accessToken calendarId value : string) (data : EventData.t)
  (options : EventOptions) :
  TanaDateInfoSchema value = inr data.(EventData.date) ->
  exists event answer,
    calls (run B (createEvent accessToken calendarId data options) s)
    = [Called (gc.insertEvent accessToken calendarId event) answer]
    /\ event.(gc.summary) = gc.Val (buildSummary data.(EventData.name) options)
    /\ (exists p q,
          event.(gc.start) = gc.Val (point p)
          /\ event.(gc.end_) = gc.Val (point q)
          /\ Shapes.well_shaped data.(EventData.timeZone) p = true
          /\ Shapes.well_shaped data.(EventData.timeZone) q = true).
Proof.
  intros H.
  destruct (NotationFacts.schema_tokens _ _ H) as [_ [Ts Te]].
  destruct (NotationFacts.build_of_tokens data.(EventData.date)
              data.(EventData.timeZone) Ts Te) as [ps [pe [Es [Ee E]]]].
  unfold createEvent, await. rewrite E. cbn [lift bind_async run].
  destruct (NotationFacts.created_point_shape _ _ _ Es) as [Ws _].
  destruct (NotationFacts.created_point_shape _ _ _ Ee) as [We _].
  destruct (respond B _ s) as [[event|e] s1].
  - destruct (buildTanaPaste event calendarId (fieldsToReturn options));
      cbn [lift run calls]; eexists; eexists;
      (split; [reflexivity|]); (split; [reflexivity|]);
      exists ps, pe; auto.
  - cbn [calls]. eexists; eexists.
    (split; [reflexivity|]); (split; [reflexivity|]).
    exists ps, pe; auto.
Qed.

Lemma validated_creation_reaches_the_calendar_witness :
  exists event answer,
    calls (run Backends.keeping
             (createEvent "token" "primary" Backends.stand_up
                DEFAULT_OPTIONS) 0)
    = [Called (gc.insertEvent "token" "primary" event) answer]
    /\ event.(gc.summary) = gc.Val "Stand-up".
Proof.
  destruct (validated_creation_reaches_the_calendar Backends.keeping 0
              "token" "primary" "[[date:2025-06-18/2025-06-19]]"
              Backends.stand_up DEFAULT_OPTIONS eq_refl)
    as [event [answer [C [T _]]]].
  exists event, answer. split; [exact C | exact T].
Defined.

(** *** The routes *)

(** X20. A [POST] without options, with a validated date and a calendar
    id that is not empty, answers the default lines of the record the insert
    was answered with, joined without a stray newline. *)
Theorem post_answers_the_default_lines {S} (B : Backend S) (s : S)
  (accessToken calendarId value : string) (data : EventData.t)
  (call : gc.EventCall) (created : gc.CalendarEvent) :
  calendarId <> EmptyString ->
  TanaDateInfoSchema value = inr data.(EventData.date) ->
  let r := run B (Routes.postEvent accessToken calendarId data None) s in
  r.(calls) = [Called call (Ok (Some created))] ->
  r.(outcome) = Ok (serialize created calendarId DEFAULT_FIELDS_TO_RETURN).
Proof.
  intros N H.
  destruct (NotationFacts.schema_tokens _ _ H) as [_ [Ts Te]].
  destruct (NotationFacts.build_of_tokens data.(EventData.date)
              data.(EventData.timeZone) Ts Te) as [ps [pe [_ [_ E]]]].
  unfold Routes.postEvent, Routes.withDefaults, createEvent, await.
  rewrite E. cbn [lift bind_async run].
  destruct (respond B _ s) as [[event|e] s1].
  - cbn [fieldsToReturn DEFAULT_OPTIONS].
    destruct (buildTanaPaste event calendarId DEFAULT_FIELDS_TO_RETURN)
      eqn:P; cbn [lift run calls outcome]; intros [= _ ->];
      rewrite (default_selection_is_serialized created calendarId N) in P;
      congruence.
  - cbn [calls]. discriminate.
Qed.

Lemma post_answers_the_default_lines_witness :
  outcome (run Backends.keeping
             (Routes.postEvent "token" "primary" Backends.stand_up None) 0)
  = Ok ("Event URL::https://calendar.example/new" ++ Js.nl
        ++ "Event ID::new" ++ Js.nl
        ++ "Synced Calendar ID::primary")%string.
Proof.
  refine (post_answers_the_default_lines Backends.keeping 0
            "token" "primary" "[[date:2025-06-18/2025-06-19]]"
            Backends.stand_up _ _ _ eq_refl eq_refl).
  discriminate.
Defined.

(** X21. A [PUT] without fields, destination and options, on an event
    the fetch finds, makes that one call and answers the default lines of
    the fetched record. *)
Theorem put_without_changes_answers_the_default_lines {S} (B : Backend S)
  (s s1 : S) (accessToken fromCalendarId eventId : string)
  (event : gc.CalendarEvent) :
  fromCalendarId <> EmptyString ->
  respond B (gc.getEvent accessToken fromCalendarId eventId) s
  = (Ok (Some event), s1) ->
  run B (Routes.putEvent accessToken fromCalendarId None eventId
           PartialEventData.empty None) s
  = {| outcome :=
         Ok (serialize event fromCalendarId DEFAULT_FIELDS_TO_RETURN);
       final := s1;
       calls := [Called (gc.getEvent accessToken fromCalendarId eventId)
                   (Ok (Some event))] |}.
Proof.
  intros N G. unfold Routes.putEvent, Routes.withDefaults, updateEvent, await.
  cbn [bind_async run]. rewrite G.
  cbn [bind_async run PartialEventData.keys PartialEventData.empty
       PartialEventData.name PartialEventData.date
       PartialEventData.description PartialEventData.timeZone
       PartialEventData.location PartialEventData.present app List.length
       Nat.ltb Nat.leb fieldsToReturn DEFAULT_OPTIONS].
  rewrite (default_selection_is_serialized event fromCalendarId N).
  reflexivity.
Qed.

Lemma put_without_changes_answers_the_default_lines_witness :
  outcome (run (Sample.echo (Some Sample.fetched))
             (Routes.putEvent "token" "primary" None "abc"
                PartialEventData.empty None) tt)
  = Ok ("Event URL::https://calendar.example/event?eid=abc" ++ Js.nl
        ++ "Event ID::abc" ++ Js.nl
        ++ "Synced Calendar ID::primary")%string.
Proof.
  refine (f_equal outcome
            (put_without_changes_answers_the_default_lines
               (Sample.echo (Some Sample.fetched)) tt tt
               "token" "primary" "abc" Sample.fetched _ eq_refl)).
  discriminate.
Defined.

(** X22. A deletion is one call; a [false] from the backend is not an
    error but the text [Failed to delete event: <id>], a [true] the text of
    success, and a failure of the call the outcome as it is. *)
Theorem delete_answers_in_words {S} (B : Backend S) (s : S)
  (accessToken calendarId eventId : string) :
  let r := run B (Routes.postDelete accessToken calendarId eventId) s in
  let answer := fst (respondDelete B accessToken calendarId eventId s) in
  r.(calls) = [CalledDelete accessToken calendarId eventId answer]
  /\ r.(final) = snd (respondDelete B accessToken calendarId eventId s)
  /\ r.(outcome)
     = match answer with
       | Ok true => Ok ("Event deleted successfully: " ++ eventId)%string
       | Ok false => Ok ("Failed to delete event: " ++ eventId)%string
       | Thrown e => Thrown e
       end
  /\ outcome (run B (deleteEvent accessToken calendarId eventId) s) = answer.
Proof.
  unfold Routes.postDelete, deleteEvent. cbn [bind_async run].
  destruct (respondDelete B accessToken calendarId eventId s)
    as [[[|]|e] s1]; cbn; repeat split.
Qed.

End FlowFacts.

(** ** The schemas of the event data *)

Module SchemaFacts.
Import Js TanaDate Schemas Service Spec Unparse StringFacts.

Lemma trim_blank (s : string) :
  all_chars isWhiteSpace s = true -> trim s = EmptyString.
Proof.
  unfold trim. induction s as [|c s IH]; [reflexivity|]. cbn.
  intros H. apply andb_true_iff in H as [-> H]. now apply IH.
Qed.

Lemma parse_date_builds (s timeZone : string) (info : TanaDateInfo) :
  EventSchemas.parse_date s = Some info ->
  exists r, buildEventDateTimeInfo info timeZone = Ok r.
Proof.
  unfold EventSchemas.parse_date.
  destruct (TanaDateInfoSchema s) as [|i] eqn:E; [discriminate|].
  intros [= <-].
  destruct (NotationFacts.schema_tokens _ _ E) as [_ [Ts Te]].
  destruct (NotationFacts.build_of_tokens i timeZone Ts Te)
    as [ps [pe [_ [_ B]]]].
  eexists. exact B.
Qed.

(** X23. Data the creation schema lets through has a trimmed name,
    description and location, a time zone that is not empty and passes the
    zone check, the defaults for the missing keys, and a date the time
    builder accepts. *)
Theorem validated_event_data (validTimeZone : string -> bool)
  (body : EventSchemas.Body) (data : EventData.t) :
  EventSchemas.EventDataSchema validTimeZone body = Some data ->
  clean data.(EventData.name) = true
  /\ clean data.(EventData.description) = true
  /\ clean data.(EventData.location) = true
  /\ validTimeZone data.(EventData.timeZone) = true
  /\ data.(EventData.timeZone) <> EmptyString
  /\ (body.(EventSchemas.description) = None ->
      data.(EventData.description) = EmptyString)
  /\ (body.(EventSchemas.location) = None ->
      data.(EventData.location) = EmptyString)
  /\ (body.(EventSchemas.timeZone) = None ->
      data.(EventData.timeZone) = "Etc/UTC")
  /\ exists r,
       buildEventDateTimeInfo data.(EventData.date)
         data.(EventData.timeZone) = Ok r.
Proof.
  unfold EventSchemas.EventDataSchema.
  destruct body as [[n|] [d|] de tz l]; cbn [EventSchemas.name
    EventSchemas.date EventSchemas.description EventSchemas.timeZone
    EventSchemas.location]; try discriminate.
  unfold EventSchemas.parse_name, EventSchemas.parse_description,
    EventSchemas.parse_timeZone, EventSchemas.parse_location.
  destruct (String.length n <? 1)%nat; [discriminate|].
  destruct (EventSchemas.parse_date d) as [info|] eqn:D; [|discriminate].
  destruct (String.length (EventSchemas.with_default "Etc/UTC" tz) <? 1)%nat
    eqn:Lz; [discriminate|].
  destruct (validTimeZone (EventSchemas.with_default "Etc/UTC" tz)) eqn:V;
    [|discriminate].
  destruct (1024 <? String.length
                      (EventSchemas.with_default EmptyString l))%nat;
    [discriminate|].
  intros [= <-]. cbn [EventData.name EventData.description EventData.location
    EventData.timeZone EventData.date].
  repeat split; try apply PasteFacts.trim_is_clean; try exact V.
  - intros E. rewrite E in Lz. discriminate.
  - now intros ->.
  - now intros ->.
  - now intros ->.
  - now apply parse_date_builds with (s := d).
Qed.

Lemma validated_event_data_witness :
  clean "Stand-up" = true /\ "Etc/UTC" <> EmptyString.
Proof.
  destruct (validated_event_data EventSchemas.two_zones
              {| EventSchemas.name := Some "  Stand-up ";
                 EventSchemas.date := Some "[[date:2025-06-18]]";
                 EventSchemas.description := None;
                 EventSchemas.timeZone := None;
                 EventSchemas.location := None |}
              _ eq_refl) as [N [_ [_ [_ [Z _]]]]].
  split; [exact N | exact Z].
Defined.

(** X24. The name is measured as sent and trimmed afterwards: an
    accepted name was not empty as sent, and a name of white space only is
    accepted and becomes the empty name, so that the title is made of the
    prefix and suffix alone. *)
Theorem name_is_checked_before_trimming (validTimeZone : string -> bool)
  (body : EventSchemas.Body) (data : EventData.t) (options : EventOptions) :
  EventSchemas.EventDataSchema validTimeZone body = Some data ->
  exists n,
    body.(EventSchemas.name) = Some n
    /\ n <> EmptyString
    /\ data.(EventData.name) = trim n
    /\ (all_chars isWhiteSpace n = true ->
        data.(EventData.name) = EmptyString
        /\ buildSummary data.(EventData.name) options
           = trim (or_default options.(prefix) EmptyString
                   ++ or_default options.(suffix) EmptyString)).
Proof.
  unfold EventSchemas.EventDataSchema.
  destruct body as [[n|] [d|] de tz l]; cbn [EventSchemas.name
    EventSchemas.date EventSchemas.description EventSchemas.timeZone
    EventSchemas.location]; try discriminate.
  unfold EventSchemas.parse_name.
  destruct (String.length n <? 1)%nat eqn:L; [discriminate|].
  destruct (EventSchemas.parse_date d); [|discriminate].
  destruct (EventSchemas.parse_description _); [|discriminate].
  destruct (EventSchemas.parse_timeZone _ _); [|discriminate].
  destruct (EventSchemas.parse_location _); [|discriminate].
  intros [= <-]. cbn [EventData.name]. exists n.
  split; [reflexivity|]. split; [now intros ->|]. split; [reflexivity|].
  intros W. rewrite (trim_blank _ W). split; [reflexivity|].
  unfold buildSummary. reflexivity.
Qed.

Lemma name_is_checked_before_trimming_witness :
  exists data,
    EventSchemas.EventDataSchema EventSchemas.two_zones
      {| EventSchemas.name := Some "   ";
         EventSchemas.date := Some "[[date:2025-06-18]]";
         EventSchemas.description := None;
         EventSchemas.timeZone := None;
         EventSchemas.location := None |} = Some data
    /\ data.(EventData.name) = EmptyString.
Proof.
  eexists. split; [reflexivity|].
  destruct (name_is_checked_before_trimming EventSchemas.two_zones
              {| EventSchemas.name := Some "   ";
                 EventSchemas.date := Some "[[date:2025-06-18]]";
                 EventSchemas.description := None;
                 EventSchemas.timeZone := None;
                 EventSchemas.location := None |}
              _ DEFAULT_OPTIONS eq_refl) as [n [E [_ [_ W]]]].
  injection E as <-. exact (proj1 (W eq_refl)).
Defined.

Lemma merge_succeeds (event : gc.CalendarEvent) (data : PartialEventData.t) :
  (forall d, data.(PartialEventData.date) = Some d ->
     exists info,
       buildEventDateTimeInfo d
         (or_else data.(PartialEventData.timeZone) "Etc/UTC") = Ok info) ->
  exists merged, mergeEventData (Some event) data = Ok merged.
Proof.
  intros Hd. unfold mergeEventData.
  destruct (ServiceFacts.copy_if_changed_frame (fun _ => tt)
              data.(PartialEventData.name) event gc.summary gc.with_summary
              event) as [u1 [-> _]]; [reflexivity|].
  cbn [bind_result].
  destruct (ServiceFacts.copy_if_changed_frame (fun _ => tt)
              data.(PartialEventData.description) event gc.description
              gc.with_description u1) as [u2 [-> _]]; [reflexivity|].
  cbn [bind_result].
  destruct (ServiceFacts.copy_if_changed_frame (fun _ => tt)
              data.(PartialEventData.location) event gc.location
              gc.with_location u2) as [u3 [-> _]]; [reflexivity|].
  cbn [bind_result].
  destruct (PartialEventData.date data) as [d|]; [|now eexists].
  destruct (Hd d eq_refl) as [info ->]. cbn [bind_result gc.read].
  now eexists.
Qed.

(** X25. Data the update schema lets through never makes the merge over
    a record throw, and holds exactly the keys the body holds: no default
    is filled in. *)
Theorem validated_update_data_merges (validTimeZone : string -> bool)
  (body : EventSchemas.Body) (data : PartialEventData.t)
  (event : gc.CalendarEvent) :
  EventSchemas.PartialEventDataSchema validTimeZone body = Some data ->
  (exists merged, mergeEventData (Some event) data = Ok merged)
  /\ (body.(EventSchemas.name) = None <-> data.(PartialEventData.name) = None)
  /\ (body.(EventSchemas.date) = None <-> data.(PartialEventData.date) = None)
  /\ (body.(EventSchemas.description) = None
      <-> data.(PartialEventData.description) = None)
  /\ (body.(EventSchemas.timeZone) = None
      <-> data.(PartialEventData.timeZone) = None)
  /\ (body.(EventSchemas.location) = None
      <-> data.(PartialEventData.location) = None).
Proof.
  unfold EventSchemas.PartialEventDataSchema, EventSchemas.optional.
  destruct body as [n d de tz l]; cbn [EventSchemas.name
    EventSchemas.date EventSchemas.description EventSchemas.timeZone
    EventSchemas.location].
  intros H. split.
  - apply merge_succeeds. intros i Hi.
    destruct d as [d|].
    + destruct (EventSchemas.parse_date d) as [info|] eqn:D.
      * assert (i = info) as ->.
        { destruct n as [n|]; [destruct (EventSchemas.parse_name n)|];
            destruct de as [de|], tz as [tz|], l as [l|];
            cbn in H;
            repeat match type of H with
              | context [EventSchemas.parse_timeZone ?v ?s] =>
                  destruct (EventSchemas.parse_timeZone v s)
              | context [EventSchemas.parse_location ?s] =>
                  destruct (EventSchemas.parse_location s)
              end; try discriminate; injection H as <-;
            cbn in Hi; congruence. }
        apply (parse_date_builds d _ info D).
      * destruct n as [n|]; [destruct (EventSchemas.parse_name n)|];
          discriminate.
    + destruct n as [n|]; [destruct (EventSchemas.parse_name n)|];
        destruct de as [de|], tz as [tz|], l as [l|];
        cbn in H;
        repeat match type of H with
          | context [EventSchemas.parse_timeZone ?v ?s] =>
              destruct (EventSchemas.parse_timeZone v s)
          | context [EventSchemas.parse_location ?s] =>
              destruct (EventSchemas.parse_location s)
          end; try discriminate; injection H as <-;
        cbn in Hi; discriminate.
  - destruct n as [n|]; [destruct (EventSchemas.parse_name n)|];
      (destruct d as [d|]; [destruct (EventSchemas.parse_date d)|]);
      destruct de as [de|];
      (destruct tz as [tz|];
       [destruct (EventSchemas.parse_timeZone validTimeZone tz)|]);
      (destruct l as [l|]; [destruct (EventSchemas.parse_location l)|]);
      cbn in H; try discriminate; injection H as <-; cbn;
      repeat split; intros; congruence.
Qed.

Lemma validated_update_data_merges_witness :
  exists merged,
    mergeEventData (Some Sample.fetched)
      (Sample.redate Sample.start_a_day_earlier (Some "Europe/Paris"))
    = Ok merged.
Proof.
  exact (proj1 (validated_update_data_merges EventSchemas.two_zones
                  {| EventSchemas.name := None;
                     EventSchemas.date :=
                       Some "[[date:2025-06-17/2025-06-19]]";
                     EventSchemas.description := None;
                     EventSchemas.timeZone := Some "Europe/Paris";
                     EventSchemas.location := None |}
                  _ Sample.fetched eq_refl)).
Defined.

End SchemaFacts.
